(** * Satellite visibility calculator: the coordinate pipeline of [sat_math.py]

    The Python module computes with IEEE binary64 numbers.  This development
    embeds it over the real numbers of the Standard Library: every float
    operation is read as the exact real operation it rounds, [math.pi] as
    [PI], and the functions of Python's [math] module by their real-valued
    definitions.  Rounding error, signed zeros, NaN and infinities are outside
    the model of the numeric pipeline; every theorem about it is a statement
    about the real-number semantics of the code.  The input validation of
    [gui.py] is modelled apart, on float values that include the infinities
    and NaN.  Module [Binary64] repeats the frame transformation on binary64
    numbers, to measure what rounding does to it. *)

From Stdlib Require Import Reals Lra Lia ZArith Bool String Ascii.
From Stdlib Require PrimFloat.

Open Scope R_scope.

(** ** Python's numeric operators and [math] functions over the reals *)

Module PyMath.

Definition Rltb (a b : R) : bool := if Rlt_dec a b then true else false.
Definition Rleb (a b : R) : bool := if Rle_dec a b then true else false.
Definition Rgeb (a b : R) : bool := if Rge_dec a b then true else false.
Definition Reqb (a b : R) : bool := if Req_dec_T a b then true else false.

(** [math.radians], [math.degrees]: multiplication by pi/180 and 180/pi. *)
Definition radians (x : R) : R := x * (PI / 180).
Definition degrees (x : R) : R := x * (180 / PI).

(** [math.hypot] with two arguments. *)
Definition hypot (x y : R) : R := sqrt (x * x + y * y).

(** [math.atan2 y x]: the angle of the point (x, y) in [-pi, pi], with the
    C library's value 0 at the origin. *)
Definition atan2 (y x : R) : R :=
  if Rlt_dec 0 x then atan (y / x)
  else if Rlt_dec x 0 then
    (if Rle_dec 0 y then atan (y / x) + PI else atan (y / x) - PI)
  else if Rlt_dec 0 y then PI / 2
  else if Rlt_dec y 0 then - (PI / 2)
  else 0.

(** Rounding toward zero, as the C [fmod] quotient. *)
Definition trunc (x : R) : Z :=
  if Rle_dec 0 x then Int_part x else (- Int_part (- x))%Z.

(** C's [fmod x y] for [y <> 0]: the remainder has the sign of [x]. *)
Definition fmod (x y : R) : R := x - y * IZR (trunc (x / y)).

(** The float operator [x % y] (CPython's float remainder): [fmod], then
    moved by [y] when the remainder is nonzero and its sign differs from
    that of [y].  Python raises ZeroDivisionError for [y = 0]; the only
    use below has the literal divisor 1.0. *)
Definition float_rem (x y : R) : R :=
  let m := fmod x y in
  if Reqb m 0 then 0
  else if xorb (Rltb y 0) (Rltb m 0) then m + y
  else m.

End PyMath.

(** ** numpy arrays of shape (3,) and (3,3) *)

Definition Vec3 : Type := (R * R * R)%type.
Definition Mat3 : Type := (Vec3 * Vec3 * Vec3)%type.

Definition dot (u v : Vec3) : R :=
  let '(u1, u2, u3) := u in
  let '(v1, v2, v3) := v in
  u1 * v1 + u2 * v2 + u3 * v3.

Definition row1 (M : Mat3) : Vec3 := fst (fst M).
Definition row2 (M : Mat3) : Vec3 := snd (fst M).
Definition row3 (M : Mat3) : Vec3 := snd M.

Definition col1 (M : Mat3) : Vec3 :=
  let '((a, _, _), (d, _, _), (g, _, _)) := M in (a, d, g).
Definition col2 (M : Mat3) : Vec3 :=
  let '((_, b, _), (_, e, _), (_, h, _)) := M in (b, e, h).
Definition col3 (M : Mat3) : Vec3 :=
  let '((_, _, c), (_, _, f), (_, _, i)) := M in (c, f, i).

(** [A @ B] for two (3,3) arrays. *)
Definition matmul (A B : Mat3) : Mat3 :=
  ((dot (row1 A) (col1 B), dot (row1 A) (col2 B), dot (row1 A) (col3 B)),
   (dot (row2 A) (col1 B), dot (row2 A) (col2 B), dot (row2 A) (col3 B)),
   (dot (row3 A) (col1 B), dot (row3 A) (col2 B), dot (row3 A) (col3 B))).

(** [A @ v] for a (3,3) array and a (3,) array. *)
Definition matvec (A : Mat3) (v : Vec3) : Vec3 :=
  (dot (row1 A) v, dot (row2 A) v, dot (row3 A) v).

(** Elementwise [u - v]. *)
Definition vsub (u v : Vec3) : Vec3 :=
  let '(u1, u2, u3) := u in
  let '(v1, v2, v3) := v in
  (u1 - v1, u2 - v2, u3 - v3).

Definition transpose (M : Mat3) : Mat3 := (col1 M, col2 M, col3 M).

Definition I3 : Mat3 := ((1, 0, 0), (0, 1, 0), (0, 0, 1)).

Definition det (M : Mat3) : R :=
  let '((a, b, c), (d, e, f), (g, h, i)) := M in
  a * (e * i - f * h) - b * (d * i - f * g) + c * (d * h - e * g).

(** Rows (or columns) of unit length and mutually orthogonal. *)
Definition orthonormal_triple (u v w : Vec3) : Prop :=
  dot u u = 1 /\ dot v v = 1 /\ dot w w = 1 /\
  dot u v = 0 /\ dot u w = 0 /\ dot v w = 0.

Definition orthonormal (M : Mat3) : Prop :=
  orthonormal_triple (row1 M) (row2 M) (row3 M) /\
  orthonormal_triple (col1 M) (col2 M) (col3 M) /\
  det M = 1.

(** ** Constants (WGS-84) *)

Definition F : R := 1 / 298.257223563.
Definition A : R := 6378137.
Definition E2 : R := F * (2 - F).
Definition day_sec : R := 86400.0.

(** Modelled from the spec: the constant [erfa.DAS2R] (arcseconds to
    radians) of the ERFA library, which is not part of the sources; the
    specification gives it as pi / 648000. *)
Definition DAS2R : R := PI / 648000.

(** ** Helper functions of [sat_math.py] *)

Definition jd_from_tt_offset (JDN_tt_from_J2000 : R) : R :=
  2451545.0 + JDN_tt_from_J2000.

Definition tt_utc_leap_seconds (leap_seconds : Z) : R :=
  32.184 + IZR leap_seconds.

Definition era_from_ut1 (jd_ut1 : R) : R :=
  let D_ut1 := jd_ut1 - 2451545.0 in
  let f := PyMath.float_rem (0.7790572732640 + 1.00273781191135448 * D_ut1) 1.0 in
  2 * PI * f.

Definition geodetic_to_ecef (lat_deg lon_deg h_m : R) : Vec3 :=
  let lat := PyMath.radians lat_deg in
  let lon := PyMath.radians lon_deg in
  let N := A / sqrt (1.0 - E2 * (sin lat) ^ 2) in
  let X := (N + h_m) * cos lat * cos lon in
  let Y := (N + h_m) * cos lat * sin lon in
  let Z := (N * (1.0 - E2) + h_m) * sin lat in
  (X, Y, Z).

Definition enu_components (dxyz : Vec3) (lat_deg lon_deg : R) : Vec3 :=
  let lat := PyMath.radians lat_deg in
  let lon := PyMath.radians lon_deg in
  let sinp := sin lat in
  let cosp := cos lat in
  let sinl := sin lon in
  let cosl := cos lon in
  let '(dx, dy, dz) := dxyz in
  let E := - sinl * dx + cosl * dy in
  let N := - sinp * cosl * dx - sinp * sinl * dy + cosp * dz in
  let U := cosp * cosl * dx + cosp * sinl * dy + sinp * dz in
  (E, N, U).

Definition elevation_from_enu (E N U : R) : R :=
  PyMath.degrees (PyMath.atan2 U (PyMath.hypot E N)).

(** ** Rotation functions *)

Definition R1 (x : R) : Mat3 :=
  let cx := cos x in
  let sx := sin x in
  ((1, 0, 0),
   (0, cx, - sx),
   (0, sx, cx)).

Definition R2 (y : R) : Mat3 :=
  let cy := cos y in
  let sy := sin y in
  ((cy, 0, sy),
   (0, 1, 0),
   (- sy, 0, cy)).

Definition R3 (z : R) : Mat3 :=
  let cz := cos z in
  let sz := sin z in
  ((cz, sz, 0),
   (- sz, cz, 0),
   (0, 0, 1)).

Definition W_polar (xp yp : R) : Mat3 := matmul (R2 xp) (R1 yp).

(** ** The inertial to Earth-fixed transformation

    The precession-nutation series [erfa.xys00b] and the matrix builder
    [erfa.c2ixys] belong to the ERFA library; they are parameters here. *)

Section Pipeline.

Variable xys00b : R -> R -> R * R * R.
Variable c2ixys : R -> R -> R -> Mat3.

Definition C_from_XYs (jd_tt : R) : Mat3 :=
  let jd1 := jd_tt in
  let jd2 := 0.0 in
  let '(X, Y, s) := xys00b jd1 jd2 in
  let C := c2ixys X Y s in
  C.

Definition eci_to_ecef_gcrs (r_gcrs : Vec3) (jd_tt : R) (leap_seconds : Z)
    (DUT1 xp_as yp_as : R) : Vec3 :=
  let tt_minus_utc := tt_utc_leap_seconds leap_seconds / day_sec in
  let jd_utc := jd_tt - tt_minus_utc in
  let jd_ut1 := jd_utc + DUT1 / day_sec in
  let theta := era_from_ut1 jd_ut1 in
  let R := R3 theta in
  let C := C_from_XYs jd_tt in
  let xp := xp_as * DAS2R in
  let yp := yp_as * DAS2R in
  let W := W_polar xp yp in
  let C2T := matmul (matmul W R) C in
  matvec C2T r_gcrs.

(** The numeric body of [compute] in [gui.py], after the fields are parsed:
    Earth-fixed satellite position, elevation and the visibility flag. *)
Definition compute (x y z jdn_tt : R) (leap_seconds : Z)
    (dut1 xp_as yp_as lat lon h min_elev : R) : Vec3 * R * bool :=
  let r_gcrs := (x, y, z) in
  let jd_tt := 2451545.0 + jdn_tt in
  let r_itrs := eci_to_ecef_gcrs r_gcrs jd_tt leap_seconds dut1 xp_as yp_as in
  let r_site := geodetic_to_ecef lat lon h in
  let dxyz := vsub r_itrs r_site in
  let '(E, N, U) := enu_components dxyz lat lon in
  let elev := elevation_from_enu E N U in
  let visible := PyMath.Rgeb elev min_elev in
  (r_itrs, elev, visible).

(** [main] of [sat_math.py] up to the print: elevation and visibility for
    the built-in scenario. *)
Definition main : R * bool :=
  let eci_gcrs := (4435144.0, -2137297.0, 4670064.0) in
  let min_elevation := 15 in
  let lat_deg := 45.920266 in
  let lon_deg := -63.342286 in
  let h := 0 in
  let JDN := 8084.185608609847 in
  let leap_seconds := 37%Z in
  let jd_tt := jd_from_tt_offset JDN in
  let DUT1 := 0.0 in
  let xp_as := 0.0 in
  let yp_as := 0.0 in
  let r_ecef := eci_to_ecef_gcrs eci_gcrs jd_tt leap_seconds DUT1 xp_as yp_as in
  let r_site := geodetic_to_ecef lat_deg lon_deg h in
  let dxyz := vsub r_ecef r_site in
  let '(E, N, U) := enu_components dxyz lat_deg lon_deg in
  let elevation := elevation_from_enu E N U in
  let visible := PyMath.Rleb min_elevation elevation in
  (elevation, visible).

End Pipeline.

(** ** Input validation of [gui.py]

    The text of an entry widget is a string.  A parsed float may be any
    binary64 value, also an infinity or NaN, whose comparisons are all
    false on NaN; the conversions [str.strip], [float] and [int] are
    Python built-ins and are parameters. *)

Inductive pyfloat : Type :=
| Fin (r : R)
| PInf
| NInf
| NaN.

(** [x < y] on floats. *)
Definition flt (x y : pyfloat) : bool :=
  match x, y with
  | NaN, _ | _, NaN => false
  | Fin a, Fin b => PyMath.Rltb a b
  | NInf, NInf => false
  | NInf, _ => true
  | _, NInf => false
  | PInf, _ => false
  | Fin _, PInf => true
  end.

(** [x > y] on floats. *)
Definition fgt (x y : pyfloat) : bool := flt y x.

(** The ValueError raised by the parsers, by message: not a number, not an
    integer, below the lower bound, above the upper bound; each carries the
    field name and the bound it prints. *)
Inductive ValueError : Type :=
| NotNumber (name : string)
| NotInteger (name : string)
| BelowF (name : string) (lo : pyfloat)
| AboveF (name : string) (hi : pyfloat)
| BelowZ (name : string) (lo : Z)
| AboveZ (name : string) (hi : Z).

Definition Result (T : Type) : Type := (ValueError + T)%type.

Definition bind {T U : Type} (m : Result T) (k : T -> Result U) : Result U :=
  match m with
  | inl e => inl e
  | inr v => k v
  end.

(** [s.replace(",", ".")]. *)
Fixpoint replace_comma (s : string) : string :=
  match s with
  | EmptyString => EmptyString
  | String c rest =>
      String (if Ascii.eqb c ","%char then "."%char else c) (replace_comma rest)
  end.

Section Parsers.

Variable py_strip : string -> string.
Variable py_float : string -> option pyfloat.
Variable py_int : string -> option Z.

Definition parse_float (entry name : string) (lo hi : option pyfloat)
  : Result pyfloat :=
  let s := replace_comma (py_strip entry) in
  match py_float s with
  | None => inl (NotNumber name)
  | Some x =>
      match lo with
      | Some l => if flt x l then inl (BelowF name l) else
          match hi with
          | Some h => if fgt x h then inl (AboveF name h) else inr x
          | None => inr x
          end
      | None =>
          match hi with
          | Some h => if fgt x h then inl (AboveF name h) else inr x
          | None => inr x
          end
      end
  end.

Definition parse_int (entry name : string) (lo hi : option Z) : Result Z :=
  let s := py_strip entry in
  match py_int s with
  | None => inl (NotInteger name)
  | Some v =>
      match lo with
      | Some l => if (v <? l)%Z then inl (BelowZ name l) else
          match hi with
          | Some h => if (v >? h)%Z then inl (AboveZ name h) else inr v
          | None => inr v
          end
      | None =>
          match hi with
          | Some h => if (v >? h)%Z then inl (AboveZ name h) else inr v
          | None => inr v
          end
      end
  end.

(** The entry widgets and the EOP check box read by [compute]. *)
Record Entries : Type := mkEntries {
  ent_x : string; ent_y : string; ent_z : string;
  ent_jdn : string;
  ent_lat : string; ent_lon : string; ent_h : string;
  ent_min_elev : string;
  ent_leaps : string;
  var_use_eop : bool;
  ent_dut1 : string; ent_xp : string; ent_yp : string
}.

(** The values [compute] holds once all fields are read. *)
Record Inputs : Type := mkInputs {
  in_x : pyfloat; in_y : pyfloat; in_z : pyfloat;
  in_jdn_tt : pyfloat;
  in_lat : pyfloat; in_lon : pyfloat; in_h : pyfloat;
  in_min_elev : pyfloat;
  in_leap_seconds : Z;
  in_dut1 : pyfloat; in_xp_as : pyfloat; in_yp_as : pyfloat
}.

(** The reading stage of [compute]: the fields are parsed in this order and
    the first ValueError ends the computation (it is shown in a dialog). *)
Definition compute_inputs (w : Entries) : Result Inputs :=
  bind (parse_float (ent_x w) "ECI X (м)" None None) (fun x =>
  bind (parse_float (ent_y w) "ECI Y (м)" None None) (fun y =>
  bind (parse_float (ent_z w) "ECI Z (м)" None None) (fun z =>
  bind (parse_float (ent_jdn w) "JDN от J2000 (TT)" None None) (fun jdn_tt =>
  bind (parse_float (ent_lat w) "Широта (°)"
          (Some (Fin (-90.0))) (Some (Fin 90.0))) (fun lat =>
  bind (parse_float (ent_lon w) "Долгота (°)"
          (Some (Fin (-180.0))) (Some (Fin 180.0))) (fun lon =>
  bind (parse_float (ent_h w) "Высота (м)" None None) (fun h =>
  bind (parse_float (ent_min_elev w) "Порог видимости (°)"
          (Some (Fin (-90.0))) (Some (Fin 90.0))) (fun min_elev =>
  bind (parse_int (ent_leaps w) "Leap seconds" (Some 0%Z) (Some 100%Z))
       (fun leap_seconds =>
  if var_use_eop w then
    bind (parse_float (ent_dut1 w) "DUT1 (с)"
            (Some (Fin (-1.0))) (Some (Fin 1.0))) (fun dut1 =>
    bind (parse_float (ent_xp w) "xp (″)"
            (Some (Fin (-1.0))) (Some (Fin 1.0))) (fun xp_as =>
    bind (parse_float (ent_yp w) "yp (″)"
            (Some (Fin (-1.0))) (Some (Fin 1.0))) (fun yp_as =>
    inr (mkInputs x y z jdn_tt lat lon h min_elev leap_seconds
           dut1 xp_as yp_as))))
  else
    inr (mkInputs x y z jdn_tt lat lon h min_elev leap_seconds
           (Fin 0.0) (Fin 0.0) (Fin 0.0))))))))))).

End Parsers.

(** A parsed float that passed a check against finite bounds. *)
Definition nan_or_within (l h : R) (x : pyfloat) : Prop :=
  x = NaN \/ exists r, x = Fin r /\ l <= r <= h.

(** ** The frame transformation on binary64 numbers

    The same functions with every operation rounded as Python rounds it.
    The source does not fix the order in which numpy's [@] adds the three
    products of a row and a column; they are added left to right.
    [math.cos], [math.sin], [erfa.DAS2R], [erfa.xys00b] and [erfa.c2ixys]
    are parameters. *)

Module Binary64.
Import PrimFloat.
Local Open Scope float_scope.
Set Warnings "-inexact-float".

Definition Vec3 : Type := (float * float * float)%type.
Definition Mat3 : Type := (Vec3 * Vec3 * Vec3)%type.

Definition dot (u v : Vec3) : float :=
  let '(u1, u2, u3) := u in
  let '(v1, v2, v3) := v in
  u1 * v1 + u2 * v2 + u3 * v3.

Definition row1 (M : Mat3) : Vec3 := fst (fst M).
Definition row2 (M : Mat3) : Vec3 := snd (fst M).
Definition row3 (M : Mat3) : Vec3 := snd M.

Definition col1 (M : Mat3) : Vec3 :=
  let '((a, _, _), (d, _, _), (g, _, _)) := M in (a, d, g).
Definition col2 (M : Mat3) : Vec3 :=
  let '((_, b, _), (_, e, _), (_, h, _)) := M in (b, e, h).
Definition col3 (M : Mat3) : Vec3 :=
  let '((_, _, c), (_, _, f), (_, _, i)) := M in (c, f, i).

Definition matmul (A B : Mat3) : Mat3 :=
  ((dot (row1 A) (col1 B), dot (row1 A) (col2 B), dot (row1 A) (col3 B)),
   (dot (row2 A) (col1 B), dot (row2 A) (col2 B), dot (row2 A) (col3 B)),
   (dot (row3 A) (col1 B), dot (row3 A) (col2 B), dot (row3 A) (col3 B))).

Definition matvec (A : Mat3) (v : Vec3) : Vec3 :=
  (dot (row1 A) v, dot (row2 A) v, dot (row3 A) v).

Definition transpose (M : Mat3) : Mat3 := (col1 M, col2 M, col3 M).


(** Rounding toward zero.  Below 2^52 in magnitude, adding and subtracting
    2^52 rounds to a nearest integer, which is lowered by 1 when it exceeds
    the magnitude; from 2^52 on every float is an integer. *)
Definition two52 : float := 4503599627370496.

Definition trunc (x : float) : float :=
  let a := abs x in
  if two52 <=? a then x
  else
    let t := (a + two52) - two52 in
    let fl := if a <? t then t - 1 else t in
    if x <? 0 then - fl else fl.

(** [x % 1.0]: the C [fmod x 1.0] is [x - trunc x], computed without
    rounding error; then CPython's sign adjustment. *)
Definition float_rem_1 (x : float) : float :=
  let m := x - trunc x in
  if m =? 0 then 0
  else if xorb (1 <? 0) (m <? 0) then m + 1
  else m.

(** [float(n)] for an integer [n], exact below 2^53 in magnitude. *)
Fixpoint float_of_pos (p : positive) : float :=
  match p with
  | xH => 1
  | xO q => 2 * float_of_pos q
  | xI q => 2 * float_of_pos q + 1
  end.

Definition float_of_Z (z : Z) : float :=
  match z with
  | Z0 => 0
  | Zpos p => float_of_pos p
  | Zneg p => - float_of_pos p
  end.

(** [math.pi]. *)
Definition pi : float := 3.141592653589793.

Definition day_sec : float := 86400.0.

Definition tt_utc_leap_seconds (leap_seconds : Z) : float :=
  32.184 + float_of_Z leap_seconds.

Definition era_from_ut1 (jd_ut1 : float) : float :=
  let D_ut1 := jd_ut1 - 2451545.0 in
  let f := float_rem_1 (0.7790572732640 + 1.00273781191135448 * D_ut1) in
  2 * pi * f.

Section Transform.

Variable cos : float -> float.
Variable sin : float -> float.
Variable DAS2R : float.
Variable xys00b : float -> float -> float * float * float.
Variable c2ixys : float -> float -> float -> Mat3.

Definition R1 (x : float) : Mat3 :=
  let cx := cos x in
  let sx := sin x in
  ((1, 0, 0),
   (0, cx, - sx),
   (0, sx, cx)).

Definition R2 (y : float) : Mat3 :=
  let cy := cos y in
  let sy := sin y in
  ((cy, 0, sy),
   (0, 1, 0),
   (- sy, 0, cy)).

Definition R3 (z : float) : Mat3 :=
  let cz := cos z in
  let sz := sin z in
  ((cz, sz, 0),
   (- sz, cz, 0),
   (0, 0, 1)).

Definition W_polar (xp yp : float) : Mat3 := matmul (R2 xp) (R1 yp).

Definition C_from_XYs (jd_tt : float) : Mat3 :=
  let jd1 := jd_tt in
  let jd2 := 0.0 in
  let '(X, Y, s) := xys00b jd1 jd2 in
  let C := c2ixys X Y s in
  C.

(** The local array [C2T] of [eci_to_ecef_gcrs]. *)
Definition C2T (jd_tt : float) (leap_seconds : Z) (DUT1 xp_as yp_as : float)
  : Mat3 :=
  let tt_minus_utc := tt_utc_leap_seconds leap_seconds / day_sec in
  let jd_utc := jd_tt - tt_minus_utc in
  let jd_ut1 := jd_utc + DUT1 / day_sec in
  let theta := era_from_ut1 jd_ut1 in
  let R := R3 theta in
  let C := C_from_XYs jd_tt in
  let xp := xp_as * DAS2R in
  let yp := yp_as * DAS2R in
  let W := W_polar xp yp in
  matmul (matmul W R) C.

Definition eci_to_ecef_gcrs (r_gcrs : Vec3) (jd_tt : float) (leap_seconds : Z)
    (DUT1 xp_as yp_as : float) : Vec3 :=
  let tt_minus_utc := tt_utc_leap_seconds leap_seconds / day_sec in
  let jd_utc := jd_tt - tt_minus_utc in
  let jd_ut1 := jd_utc + DUT1 / day_sec in
  let theta := era_from_ut1 jd_ut1 in
  let R := R3 theta in
  let C := C_from_XYs jd_tt in
  let xp := xp_as * DAS2R in
  let yp := yp_as * DAS2R in
  let W := W_polar xp yp in
  let C2T := matmul (matmul W R) C in
  matvec C2T r_gcrs.

End Transform.

(** *** The scenario of [main] with the position scaled by 10^4

    Epoch, leap seconds and Earth orientation are those of [main]; the
    Earth Rotation Angle they give is [theta_main].  The cosine and sine
    are listed at the two angles the scenario meets, 0 and [theta_main],
    with the values Python's [math.cos] and [math.sin] return there
    (0x1.a41ae95164e11p-1 and 0x1.24ab804eebddap-1).  The
    precession-nutation provider returns the identity, which satisfies its
    contract exactly. *)

Definition theta_main : float := 0x1.378ab1759f83ap-1.






Definition jd_tt_main : float := 2451545.0 + 8084.185608609847.



End Binary64.

(** ** Tactics for arrays *)

Ltac split_mat M :=
  let a := fresh "a" in let b := fresh "b" in let c := fresh "c" in
  let d := fresh "d" in let e := fresh "e" in let f := fresh "f" in
  let g := fresh "g" in let h := fresh "h" in let i := fresh "i" in
  destruct M as [[[[a b] c] [[d e] f]] [[g h] i]].

Ltac split_vec v :=
  let x := fresh "x" in let y := fresh "y" in let z := fresh "z" in
  destruct v as [[x y] z].

Ltac mat_unfold :=
  unfold matmul, matvec, transpose, I3, det, dot,
    row1, row2, row3, col1, col2, col3; simpl.

(** Equality of arrays, entry by entry. *)
Ltac entries :=
  repeat match goal with
         | |- (_, _) = (_, _) => refine (f_equal2 pair _ _)
         end.

Ltac mat_eq := mat_unfold; entries; try ring.

Ltac trig_ring x :=
  let H := fresh "H" in
  pose proof (sin2_cos2 x) as H; unfold Rsqr in H; mat_unfold;
  entries; try ring; try nra.

(** ** Facts about the numeric operators *)

Section PyMathFacts.
Import PyMath.

Lemma Rltb_true (a b : R) : Rltb a b = true <-> a < b.
Proof. unfold Rltb; destruct (Rlt_dec a b); split; intros; try easy; lra. Qed.

Lemma Rleb_true (a b : R) : Rleb a b = true <-> a <= b.
Proof. unfold Rleb; destruct (Rle_dec a b); split; intros; try easy; lra. Qed.

Lemma Rgeb_true (a b : R) : Rgeb a b = true <-> a >= b.
Proof. unfold Rgeb; destruct (Rge_dec a b); split; intros; try easy; lra. Qed.

Lemma Reqb_true (a b : R) : Reqb a b = true <-> a = b.
Proof. unfold Reqb; destruct (Req_dec_T a b); split; intros; try easy. Qed.

(** Truncation differs from the floor only on negative non-integers. *)
Lemma trunc_nonneg (x : R) : 0 <= x -> trunc x = Int_part x.
Proof. intros H; unfold trunc; destruct (Rle_dec 0 x); [reflexivity | lra]. Qed.

Lemma trunc_neg (x : R) : x < 0 -> trunc x = (- Int_part (- x))%Z.
Proof. intros H; unfold trunc; destruct (Rle_dec 0 x); [lra | reflexivity]. Qed.

Lemma fmod_1_nonneg (x : R) : 0 <= x -> fmod x 1 = frac_part x.
Proof.
  intros H; unfold fmod, frac_part.
  replace (x / 1) with x by field.
  rewrite trunc_nonneg by assumption; ring.
Qed.

Lemma fmod_1_neg (x : R) : x < 0 -> fmod x 1 = - frac_part (- x).
Proof.
  intros H; unfold fmod, frac_part.
  replace (x / 1) with x by field.
  rewrite trunc_neg by assumption.
  rewrite opp_IZR; ring.
Qed.

(** The fractional part of the opposite of a non-integer. *)
Lemma frac_part_opp (x : R) :
  frac_part x <> 0 -> frac_part (- x) = 1 - frac_part x.
Proof.
  intros Hx.
  destruct (base_fp x) as [H0 H1].
  assert (Hspec := Int_part_frac_part_spec (- x) (- Int_part x - 1)
                     (1 - frac_part x)).
  destruct Hspec as [_ Hf].
  - lra.
  - rewrite minus_IZR, opp_IZR.
    pose proof (Rplus_Int_part_frac_part x) as Hd. lra.
  - symmetry; exact Hf.
Qed.

Lemma frac_part_opp_0 (x : R) : frac_part x = 0 -> frac_part (- x) = 0.
Proof.
  intros Hx.
  assert (Hspec := Int_part_frac_part_spec (- x) (- Int_part x) 0).
  destruct Hspec as [_ Hf].
  - lra.
  - rewrite opp_IZR.
    pose proof (Rplus_Int_part_frac_part x) as Hd. lra.
  - symmetry; exact Hf.
Qed.

(** With divisor 1 the float remainder is the fractional part: a true
    modulo, also on negative arguments. *)
Lemma float_rem_1 (x : R) : float_rem x 1 = frac_part x.
Proof.
  unfold float_rem.
  destruct (Rle_dec 0 x) as [Hx | Hx].
  - rewrite fmod_1_nonneg by assumption.
    destruct (base_fp x) as [H0 H1].
    unfold Reqb; destruct (Req_dec_T (frac_part x) 0) as [e | ne]; [lra |].
    unfold Rltb.
    destruct (Rlt_dec 1 0); [lra |].
    destruct (Rlt_dec (frac_part x) 0); [lra | reflexivity].
  - rewrite fmod_1_neg by lra.
    destruct (base_fp (- x)) as [H0 H1].
    unfold Reqb; destruct (Req_dec_T (- frac_part (- x)) 0) as [e | ne].
    + assert (Hz : frac_part (- x) = 0) by lra.
      apply frac_part_opp_0 in Hz.
      rewrite Ropp_involutive in Hz. lra.
    + unfold Rltb.
      destruct (Rlt_dec 1 0); [lra |].
      destruct (Rlt_dec (- frac_part (- x)) 0) as [Hlt | Hge]; [| lra].
      simpl.
      assert (Hnz : frac_part (- x) <> 0) by lra.
      apply frac_part_opp in Hnz.
      rewrite Ropp_involutive in Hnz. lra.
Qed.

Lemma hypot_nonneg (x y : R) : 0 <= hypot x y.
Proof. unfold hypot; apply sqrt_pos. Qed.

Lemma hypot_0_0 : hypot 0 0 = 0.
Proof. unfold hypot; replace (0 * 0 + 0 * 0) with 0 by ring; apply sqrt_0. Qed.

Lemma atan2_0_0 : atan2 0 0 = 0.
Proof.
  unfold atan2.
  destruct (Rlt_dec 0 0); [lra |]; reflexivity.
Qed.

(** On the closed right half plane [atan2] stays within a quarter turn. *)
Lemma atan2_right_half_plane (y x : R) :
  0 <= x -> - (PI / 2) <= atan2 y x <= PI / 2.
Proof.
  intros Hx. pose proof PI_RGT_0 as Hpi.
  unfold atan2.
  destruct (Rlt_dec 0 x).
  - pose proof (atan_bound (y / x)); lra.
  - destruct (Rlt_dec x 0); [lra |].
    destruct (Rlt_dec 0 y); [lra |].
    destruct (Rlt_dec y 0); lra.
Qed.

Lemma degrees_bound (a : R) :
  - (PI / 2) <= a <= PI / 2 -> -90 <= degrees a <= 90.
Proof.
  intros [Hl Hu]. pose proof PI_RGT_0 as Hpi.
  unfold degrees.
  assert (Hk : 0 < 180 / PI) by (apply Rdiv_lt_0_compat; lra).
  assert (E1 : 90 = PI / 2 * (180 / PI)) by (field; lra).
  split.
  - replace (-90) with (- (PI / 2) * (180 / PI)) by (field; lra).
    apply Rmult_le_compat_r; lra.
  - rewrite E1 at 1. apply Rmult_le_compat_r; lra.
Qed.

End PyMathFacts.

(** ** Algebra of 3x3 arrays *)

Lemma matmul_assoc (M N P : Mat3) :
  matmul (matmul M N) P = matmul M (matmul N P).
Proof. split_mat M; split_mat N; split_mat P; mat_eq. Qed.

Lemma matvec_matmul (M N : Mat3) (v : Vec3) :
  matvec (matmul M N) v = matvec M (matvec N v).
Proof. split_mat M; split_mat N; split_vec v; mat_eq. Qed.

Lemma matmul_I3_l (M : Mat3) : matmul I3 M = M.
Proof. split_mat M; mat_eq. Qed.

Lemma matmul_I3_r (M : Mat3) : matmul M I3 = M.
Proof. split_mat M; mat_eq. Qed.

Lemma matvec_I3 (v : Vec3) : matvec I3 v = v.
Proof. split_vec v; mat_eq. Qed.

Lemma transpose_matmul (M N : Mat3) :
  transpose (matmul M N) = matmul (transpose N) (transpose M).
Proof. split_mat M; split_mat N; mat_eq. Qed.

Lemma transpose_involutive (M : Mat3) : transpose (transpose M) = M.
Proof. split_mat M; reflexivity. Qed.

Lemma det_matmul (M N : Mat3) : det (matmul M N) = det M * det N.
Proof. split_mat M; split_mat N; mat_unfold; ring. Qed.

Lemma det_transpose (M : Mat3) : det (transpose M) = det M.
Proof. split_mat M; mat_unfold; ring. Qed.

(** Orthonormal rows say [M @ M.T] is the identity, orthonormal columns say
    [M.T @ M] is. *)
Lemma orthonormal_rows_iff (M : Mat3) :
  orthonormal_triple (row1 M) (row2 M) (row3 M) <->
  matmul M (transpose M) = I3.
Proof.
  split_mat M; unfold orthonormal_triple; mat_unfold; split.
  - intros (H1 & H2 & H3 & H4 & H5 & H6).
    entries; try assumption.
    + rewrite <- H4; ring.
    + rewrite <- H5; ring.
    + rewrite <- H6; ring.
  - intros H; injection H; intros; repeat split; assumption.
Qed.

Lemma orthonormal_cols_iff (M : Mat3) :
  orthonormal_triple (col1 M) (col2 M) (col3 M) <->
  matmul (transpose M) M = I3.
Proof.
  split_mat M; unfold orthonormal_triple; mat_unfold; split.
  - intros (H1 & H2 & H3 & H4 & H5 & H6).
    entries; try assumption.
    + rewrite <- H4; ring.
    + rewrite <- H5; ring.
    + rewrite <- H6; ring.
  - intros H; injection H; intros; repeat split; assumption.
Qed.

Lemma orthonormal_iff (M : Mat3) :
  orthonormal M <->
  matmul M (transpose M) = I3 /\ matmul (transpose M) M = I3 /\ det M = 1.
Proof.
  unfold orthonormal.
  rewrite orthonormal_rows_iff, orthonormal_cols_iff; tauto.
Qed.

Lemma orthonormal_I3 : orthonormal I3.
Proof. apply orthonormal_iff; repeat split; mat_eq. Qed.

Lemma orthonormal_matmul (M N : Mat3) :
  orthonormal M -> orthonormal N -> orthonormal (matmul M N).
Proof.
  rewrite !orthonormal_iff.
  intros (Mr & Mc & Md) (Nr & Nc & Nd); repeat split.
  - rewrite transpose_matmul, matmul_assoc.
    rewrite <- (matmul_assoc N), Nr, matmul_I3_l. exact Mr.
  - rewrite transpose_matmul, matmul_assoc.
    rewrite <- (matmul_assoc (transpose M)), Mc, matmul_I3_l. exact Nc.
  - rewrite det_matmul, Md, Nd; ring.
Qed.

Lemma orthonormal_transpose (M : Mat3) :
  orthonormal M -> orthonormal (transpose M).
Proof.
  rewrite !orthonormal_iff, transpose_involutive, det_transpose; tauto.
Qed.

(** ** The rotation functions *)

Lemma orthonormal_R1 (x : R) : orthonormal (R1 x).
Proof.
  apply orthonormal_iff; unfold R1; repeat split; trig_ring x.
Qed.

Lemma orthonormal_R2 (y : R) : orthonormal (R2 y).
Proof.
  apply orthonormal_iff; unfold R2; repeat split; trig_ring y.
Qed.

Lemma orthonormal_R3 (z : R) : orthonormal (R3 z).
Proof.
  apply orthonormal_iff; unfold R3; repeat split; trig_ring z.
Qed.

Lemma orthonormal_W_polar (xp yp : R) : orthonormal (W_polar xp yp).
Proof.
  unfold W_polar; apply orthonormal_matmul;
    [apply orthonormal_R2 | apply orthonormal_R1].
Qed.

Lemma R1_0 : R1 0 = I3.
Proof. unfold R1, I3; rewrite cos_0, sin_0, Ropp_0; reflexivity. Qed.

Lemma R2_0 : R2 0 = I3.
Proof. unfold R2, I3; rewrite cos_0, sin_0, Ropp_0; reflexivity. Qed.

Lemma R3_0 : R3 0 = I3.
Proof. unfold R3, I3; rewrite cos_0, sin_0, Ropp_0; reflexivity. Qed.

Lemma W_polar_0_0 : W_polar 0 0 = I3.
Proof. unfold W_polar; rewrite R2_0, R1_0; apply matmul_I3_l. Qed.

(** ** Time scales and Earth rotation angle *)

Lemma one_dot_zero : 1.0 = 1.
Proof. lra. Qed.

(** C6: for every JD(UT1), also before J2000, the turn fraction [f] of
    [era_from_ut1] is the fractional part of its argument (a true modulo,
    never negative), lies in [0, 1), and the Earth Rotation Angle
    [2 * pi * f] lies in [0, 2 pi). *)
Theorem era_from_ut1_range (jd_ut1 : R) :
  let D_ut1 := jd_ut1 - 2451545.0 in
  let x := 0.7790572732640 + 1.00273781191135448 * D_ut1 in
  let f := PyMath.float_rem x 1.0 in
  f = frac_part x /\ 0 <= f < 1 /\
  era_from_ut1 jd_ut1 = 2 * PI * f /\
  0 <= era_from_ut1 jd_ut1 < 2 * PI.
Proof.
  intros D_ut1 x f.
  assert (Hf : f = frac_part x).
  { unfold f; rewrite one_dot_zero; apply float_rem_1. }
  destruct (base_fp x) as [H0 H1].
  pose proof PI_RGT_0 as Hpi.
  assert (He : era_from_ut1 jd_ut1 = 2 * PI * f) by reflexivity.
  split; [exact Hf |].
  repeat split; rewrite ?He, Hf; nra.
Qed.

Section PipelineFacts.

Variable xys00b : R -> R -> R * R * R.
Variable c2ixys : R -> R -> R -> Mat3.

(** The composed array of [eci_to_ecef_gcrs], with the UT1 date written as
    the code computes it. *)
Lemma eci_to_ecef_gcrs_unfold (r : Vec3) (jd_tt : R) (leap : Z)
    (DUT1 xp_as yp_as : R) :
  eci_to_ecef_gcrs xys00b c2ixys r jd_tt leap DUT1 xp_as yp_as =
  matvec
    (matmul
       (matmul (W_polar (xp_as * DAS2R) (yp_as * DAS2R))
               (R3 (era_from_ut1
                      (jd_tt - tt_utc_leap_seconds leap / day_sec
                       + DUT1 / day_sec))))
       (C_from_XYs xys00b c2ixys jd_tt)) r.
Proof. reflexivity. Qed.

(** C1: the Earth-fixed output is [M . r] with [M = W . R . C] in this
    order: polar motion times Earth rotation times precession-nutation, so
    that [C] acts on the inertial vector first, then [R], then [W]. *)
Theorem eci_to_ecef_gcrs_is_WRC (r : Vec3) (jd_tt : R) (leap : Z)
    (DUT1 xp_as yp_as : R) :
  let jd_ut1 := jd_tt - tt_utc_leap_seconds leap / day_sec + DUT1 / day_sec in
  let W := W_polar (xp_as * DAS2R) (yp_as * DAS2R) in
  let Rm := R3 (era_from_ut1 jd_ut1) in
  let C := C_from_XYs xys00b c2ixys jd_tt in
  let M := matmul (matmul W Rm) C in
  eci_to_ecef_gcrs xys00b c2ixys r jd_tt leap DUT1 xp_as yp_as = matvec M r /\
  M = matmul W (matmul Rm C) /\
  matvec M r = matvec W (matvec Rm (matvec C r)).
Proof.
  intros jd_ut1 W Rm C M; repeat split.
  - unfold M; apply matmul_assoc.
  - unfold M; rewrite !matvec_matmul; reflexivity.
Qed.

(** C7: the UT1 date that [eci_to_ecef_gcrs] feeds to the Earth rotation is
    JD(TT) - (32.184 + leapSeconds)/86400 + DUT1/86400: JD(UTC) is formed
    first by subtracting TT-UTC in days, then DUT1 in days is added. *)
Theorem eci_to_ecef_gcrs_jd_ut1 (r : Vec3) (jd_tt : R) (leap : Z)
    (DUT1 xp_as yp_as : R) :
  let jd_utc := jd_tt - tt_utc_leap_seconds leap / day_sec in
  let jd_ut1 := jd_utc + DUT1 / day_sec in
  tt_utc_leap_seconds leap = 32.184 + IZR leap /\
  jd_utc = jd_tt - (32.184 + IZR leap) / 86400 /\
  jd_ut1 = jd_tt - (32.184 + IZR leap) / 86400 + DUT1 / 86400 /\
  eci_to_ecef_gcrs xys00b c2ixys r jd_tt leap DUT1 xp_as yp_as =
  matvec
    (matmul
       (matmul (W_polar (xp_as * DAS2R) (yp_as * DAS2R))
               (R3 (era_from_ut1
                      (jd_tt - (32.184 + IZR leap) / 86400 + DUT1 / 86400))))
       (C_from_XYs xys00b c2ixys jd_tt)) r.
Proof.
  intros jd_utc jd_ut1.
  assert (Hd : day_sec = 86400) by (unfold day_sec; lra).
  assert (H1 : jd_utc = jd_tt - (32.184 + IZR leap) / 86400).
  { unfold jd_utc, tt_utc_leap_seconds; rewrite Hd; reflexivity. }
  assert (H2 : jd_ut1 = jd_tt - (32.184 + IZR leap) / 86400 + DUT1 / 86400).
  { unfold jd_ut1; rewrite H1, Hd; reflexivity. }
  repeat split; try assumption.
  rewrite <- H2; apply eci_to_ecef_gcrs_unfold.
Qed.

(** The composed array is orthonormal as soon as the precession-nutation
    array is. *)
Lemma orthonormal_C2T (jd_tt jd_ut1 xp yp : R) :
  orthonormal (C_from_XYs xys00b c2ixys jd_tt) ->
  orthonormal
    (matmul (matmul (W_polar xp yp) (R3 (era_from_ut1 jd_ut1)))
            (C_from_XYs xys00b c2ixys jd_tt)).
Proof.
  intros HC; apply orthonormal_matmul; [| exact HC].
  apply orthonormal_matmul; [apply orthonormal_W_polar | apply orthonormal_R3].
Qed.

(** C3: every rotation array built by the module is orthonormal (unit,
    mutually orthogonal rows and columns, determinant +1): [R1], [R2], [R3]
    at any angle, [W_polar] at any offsets; products of orthonormal arrays
    are orthonormal; and so is the composed [W . R . C], the
    precession-nutation array of the ERFA library being orthonormal. *)
Theorem rotation_arrays_orthonormal :
  (forall x, orthonormal (R1 x)) /\
  (forall y, orthonormal (R2 y)) /\
  (forall z, orthonormal (R3 z)) /\
  (forall xp yp, orthonormal (W_polar xp yp)) /\
  (forall M N, orthonormal M -> orthonormal N -> orthonormal (matmul M N)) /\
  (forall jd_tt leap DUT1 xp_as yp_as,
      orthonormal (C_from_XYs xys00b c2ixys jd_tt) ->
      orthonormal
        (matmul
           (matmul (W_polar (xp_as * DAS2R) (yp_as * DAS2R))
                   (R3 (era_from_ut1
                          (jd_tt - tt_utc_leap_seconds leap / day_sec
                           + DUT1 / day_sec))))
           (C_from_XYs xys00b c2ixys jd_tt))).
Proof.
  split; [exact orthonormal_R1 |].
  split; [exact orthonormal_R2 |].
  split; [exact orthonormal_R3 |].
  split; [exact orthonormal_W_polar |].
  split; [exact orthonormal_matmul |].
  intros jd_tt leap DUT1 xp_as yp_as HC.
  apply orthonormal_C2T; exact HC.
Qed.



(** C5: with Earth Rotation Angle 0, identity precession-nutation and
    xp = yp = 0 the Earth-fixed result is the inertial input. *)
Theorem eci_to_ecef_gcrs_identity (r : Vec3) (jd_tt : R) (leap : Z) (DUT1 : R) :
  era_from_ut1 (jd_tt - tt_utc_leap_seconds leap / day_sec + DUT1 / day_sec) = 0 ->
  C_from_XYs xys00b c2ixys jd_tt = I3 ->
  eci_to_ecef_gcrs xys00b c2ixys r jd_tt leap DUT1 0 0 = r.
Proof.
  intros Hera HC.
  rewrite eci_to_ecef_gcrs_unfold, Hera, HC, R3_0.
  replace (0 * DAS2R) with 0 by ring.
  rewrite W_polar_0_0, !matmul_I3_l; apply matvec_I3.
Qed.

End PipelineFacts.

(** ** The round trip on binary64 numbers *)

Module Binary64Facts.
Import PrimFloat Binary64.
Local Open Scope float_scope.

(** The angle of the scenario is the one the code computes. *)
Lemma theta_main_is_era :
  era_from_ut1
    (jd_tt_main - tt_utc_leap_seconds 37 / day_sec + 0.0 / day_sec)
  = theta_main.
Proof. vm_compute; reflexivity. Qed.


End Binary64Facts.

(** ** Topocentric projection, elevation and visibility *)

Lemma vsub_diag (p : Vec3) : vsub p p = (0, 0, 0).
Proof. split_vec p; unfold vsub; entries; ring. Qed.

Lemma enu_components_0 (lat_deg lon_deg : R) :
  enu_components (0, 0, 0) lat_deg lon_deg = (0, 0, 0).
Proof. unfold enu_components; entries; ring. Qed.

Lemma elevation_from_enu_0 : elevation_from_enu 0 0 0 = 0.
Proof.
  unfold elevation_from_enu.
  rewrite hypot_0_0.
  rewrite atan2_0_0; unfold PyMath.degrees; ring.
Qed.

(** C8: when satellite and observer coincide the relative vector is zero,
    the projection gives E = N = U = 0 and the elevation is the number 0
    (atan2 at the origin is 0), for every observer latitude and longitude. *)
Theorem coincident_positions_elevation_0 (p : Vec3) (lat_deg lon_deg : R) :
  vsub p p = (0, 0, 0) /\
  enu_components (vsub p p) lat_deg lon_deg = (0, 0, 0) /\
  PyMath.atan2 0 (PyMath.hypot 0 0) = 0 /\
  (let '(E, N, U) := enu_components (vsub p p) lat_deg lon_deg in
   elevation_from_enu E N U = 0).
Proof.
  rewrite vsub_diag, enu_components_0, hypot_0_0, atan2_0_0.
  repeat split; apply elevation_from_enu_0.
Qed.

(** The elevation never leaves [-90, 90]: the second argument of atan2 is a
    hypotenuse, hence not negative. *)
Lemma elevation_from_enu_bound (E N U : R) :
  -90 <= elevation_from_enu E N U <= 90.
Proof.
  unfold elevation_from_enu.
  apply degrees_bound, atan2_right_half_plane, hypot_nonneg.
Qed.

Section VisibilityFacts.

Variable xys00b : R -> R -> R * R * R.
Variable c2ixys : R -> R -> R -> Mat3.

(** The elevation and flag returned by [compute] are the elevation of some
    East/North/Up triple and its comparison with the threshold. *)
Lemma compute_shape (x y z jdn_tt : R) (leap : Z)
    (dut1 xp_as yp_as lat lon h min_elev : R) :
  exists E N U,
    snd (fst (compute xys00b c2ixys x y z jdn_tt leap dut1 xp_as yp_as
                lat lon h min_elev)) = elevation_from_enu E N U /\
    snd (compute xys00b c2ixys x y z jdn_tt leap dut1 xp_as yp_as
           lat lon h min_elev) = PyMath.Rgeb (elevation_from_enu E N U) min_elev.
Proof.
  unfold compute.
  destruct (enu_components _ lat lon) as [[E N] U].
  exists E, N, U; split; reflexivity.
Qed.

Lemma main_shape :
  exists E N U,
    fst (main xys00b c2ixys) = elevation_from_enu E N U /\
    snd (main xys00b c2ixys) = PyMath.Rleb 15 (elevation_from_enu E N U).
Proof.
  unfold main.
  destruct (enu_components _ _ _) as [[E N] U].
  exists E, N, U; split; reflexivity.
Qed.

(** C9: the visibility flag is [elevation >= threshold], in [compute]
    (written [elev >= min_elev]) and in [main] (written
    [min_elevation <= elevation]); an elevation equal to the threshold is
    visible. *)
Theorem visible_iff_elevation_ge_threshold :
  (forall elev min_elev, PyMath.Rgeb elev min_elev = true <-> elev >= min_elev) /\
  (forall elev min_elev, PyMath.Rleb min_elev elev = true <-> elev >= min_elev) /\
  (forall elev, PyMath.Rgeb elev elev = true /\ PyMath.Rleb elev elev = true) /\
  (forall x y z jdn_tt leap dut1 xp_as yp_as lat lon h min_elev,
      let res := compute xys00b c2ixys x y z jdn_tt leap dut1 xp_as yp_as
                   lat lon h min_elev in
      snd res = true <-> snd (fst res) >= min_elev) /\
  (snd (main xys00b c2ixys) = true <-> fst (main xys00b c2ixys) >= 15).
Proof.
  split; [intros; apply Rgeb_true |].
  split; [intros; rewrite Rleb_true; lra |].
  split; [intros; rewrite Rgeb_true, Rleb_true; lra |].
  split.
  - intros x y z jdn_tt leap dut1 xp_as yp_as lat lon h min_elev res.
    destruct (compute_shape x y z jdn_tt leap dut1 xp_as yp_as lat lon h min_elev)
      as (E & N & U & He & Hv).
    unfold res; rewrite He, Hv; apply Rgeb_true.
  - destruct main_shape as (E & N & U & He & Hv).
    rewrite He, Hv, Rleb_true; lra.
Qed.

(** C10: for all E, N, U the elevation lies in [-90, 90] degrees, because
    the hypotenuse passed to atan2 is never negative; the elevations
    reported by [compute] and [main] are within that range. *)
Theorem elevation_within_90 :
  (forall E N, 0 <= PyMath.hypot E N) /\
  (forall E N U, -90 <= elevation_from_enu E N U <= 90) /\
  (forall x y z jdn_tt leap dut1 xp_as yp_as lat lon h min_elev,
      -90 <= snd (fst (compute xys00b c2ixys x y z jdn_tt leap dut1 xp_as yp_as
                         lat lon h min_elev)) <= 90) /\
  -90 <= fst (main xys00b c2ixys) <= 90.
Proof.
  split; [exact hypot_nonneg |].
  split; [exact elevation_from_enu_bound |].
  split.
  - intros x y z jdn_tt leap dut1 xp_as yp_as lat lon h min_elev.
    destruct (compute_shape x y z jdn_tt leap dut1 xp_as yp_as lat lon h min_elev)
      as (E & N & U & He & _).
    rewrite He; apply elevation_from_enu_bound.
  - destruct main_shape as (E & N & U & He & _).
    rewrite He; apply elevation_from_enu_bound.
Qed.

End VisibilityFacts.

(** ** Geodetic to Earth-fixed conversion at the pole *)

Lemma radians_90 : PyMath.radians 90 = PI / 2.
Proof. unfold PyMath.radians; field. Qed.

Lemma F_bounds : 0 < F < 1.
Proof. unfold F; lra. Qed.

Lemma one_minus_E2 : 1 - E2 = (1 - F) * (1 - F).
Proof. unfold E2; ring. Qed.

Lemma sqrt_one_minus_E2 : sqrt (1 - E2) = 1 - F.
Proof.
  rewrite one_minus_E2; apply sqrt_square.
  pose proof F_bounds; lra.
Qed.

(** At latitude 90 the radius of curvature is a / sqrt(1 - e2), not a. *)
Lemma geodetic_to_ecef_pole (lon_deg : R) :
  geodetic_to_ecef 90 lon_deg 0 = (0, 0, A * (1 - F)).
Proof.
  unfold geodetic_to_ecef.
  rewrite radians_90, cos_PI2, sin_PI2.
  replace (1.0 - E2 * 1 ^ 2) with (1 - E2) by lra.
  rewrite sqrt_one_minus_E2.
  pose proof F_bounds as HF.
  entries; try ring.
  replace (1.0 - E2) with ((1 - F) * (1 - F)) by (rewrite <- one_minus_E2; lra).
  field; lra.
Qed.

(** C4 fails as stated: at latitude 90, longitude 0, height 0 the third
    coordinate is not a (1 - e2), a number below 6335440. *)
Lemma geodetic_to_ecef_pole_not_a_one_minus_e2 :
  geodetic_to_ecef 90 0 0 <> (0, 0, A * (1 - E2)) /\ A * (1 - E2) < 6335440.
Proof.
  split.
  - rewrite geodetic_to_ecef_pole; intros H; injection H; intros Hz.
    unfold E2, A, F in Hz; lra.
  - unfold E2, A, F; lra.
Qed.

(** C4, amended: for every longitude, latitude 90 and height 0 map to
    (0, 0, a sqrt(1 - e2)) = (0, 0, a (1 - f)), the polar radius
    6356752.314... *)
Theorem geodetic_to_ecef_north_pole (lon_deg : R) :
  geodetic_to_ecef 90 lon_deg 0 = (0, 0, A * sqrt (1 - E2)) /\
  A * sqrt (1 - E2) = A * (1 - F) /\
  6356752.314 < A * sqrt (1 - E2) < 6356752.315.
Proof.
  rewrite sqrt_one_minus_E2, geodetic_to_ecef_pole.
  repeat split; unfold A, F; lra.
Qed.

(** ** Checks on concrete inputs *)

Example float_rem_negative : PyMath.float_rem (-0.25) 1 = 0.75.
Proof.
  rewrite float_rem_1.
  destruct (Int_part_frac_part_spec (-0.25) (-1) 0.75) as [_ Hf]; [lra | lra |].
  symmetry; exact Hf.
Qed.

Example geodetic_to_ecef_origin : geodetic_to_ecef 0 0 0 = (A, 0, 0).
Proof.
  unfold geodetic_to_ecef, PyMath.radians.
  replace (0 * (PI / 180)) with 0 by ring.
  rewrite sin_0, cos_0.
  replace (1.0 - E2 * 0 ^ 2) with 1 by lra.
  rewrite sqrt_1; entries; field.
Qed.

Example elevation_zenith : elevation_from_enu 0 0 1 = 90.
Proof.
  unfold elevation_from_enu; rewrite hypot_0_0.
  unfold PyMath.atan2.
  destruct (Rlt_dec 0 0); [lra |].
  destruct (Rlt_dec 0 1); [| lra].
  unfold PyMath.degrees; field; apply PI_neq0.
Qed.

Example elevation_horizon : elevation_from_enu 1 0 0 = 0.
Proof.
  unfold elevation_from_enu, PyMath.hypot.
  replace (1 * 1 + 0 * 0) with 1 by ring.
  rewrite sqrt_1; unfold PyMath.atan2.
  destruct (Rlt_dec 0 1); [| lra].
  replace (0 / 1) with 0 by field.
  rewrite atan_0; unfold PyMath.degrees; ring.
Qed.

(** The order of the factors matters: quarter turns about Z and about X do
    not commute. *)
Lemma matmul_R3_R1_not_commutative :
  matmul (R3 (PI / 2)) (R1 (PI / 2)) <> matmul (R1 (PI / 2)) (R3 (PI / 2)).
Proof.
  unfold R3, R1; rewrite cos_PI2, sin_PI2; mat_unfold.
  intros H; injection H; intros; lra.
Qed.

(** ** Instances

    A toy provider stands for ERFA: the series returns (0, 0, jd) and the
    matrix builder turns about Z by its third argument. *)


Lemma rotation_arrays_orthonormal_witness :
  orthonormal (R3 1) /\
  orthonormal (matmul (R1 1) (R2 2)) /\
  orthonormal
    (matmul
       (matmul (W_polar (0.1 * DAS2R) (0.2 * DAS2R))
               (R3 (era_from_ut1
                      (2459629 - tt_utc_leap_seconds 37 / day_sec
                       + 0.05 / day_sec))))
       (C_from_XYs (fun jd _ => (0, 0, jd)) (fun _ _ s => R3 s) 2459629)).
Proof.
  destruct (rotation_arrays_orthonormal (fun jd _ => (0, 0, jd))
              (fun _ _ s => R3 s)) as (H1 & H2 & H3 & _ & Hmul & HC).
  split; [apply H3 |].
  split; [apply Hmul; [apply H1 | apply H2] |].
  apply HC, H3.
Defined.

(** A TT date whose UT1 date has turn fraction 0, with no leap seconds and
    DUT1 = 0. *)
Lemma eci_to_ecef_gcrs_identity_witness :
  eci_to_ecef_gcrs (fun _ _ => (0, 0, 0)) (fun _ _ _ => I3)
    (4435144, -2137297, 4670064)
    (2451545 + 32.184 / 86400 - 0.7790572732640 / 1.00273781191135448)
    0 0 0 0
  = (4435144, -2137297, 4670064).
Proof.
  apply (eci_to_ecef_gcrs_identity (fun _ _ => (0, 0, 0)) (fun _ _ _ => I3)).
  - unfold era_from_ut1, tt_utc_leap_seconds, day_sec.
    replace (0.7790572732640 + _) with 0 by lra.
    rewrite one_dot_zero, float_rem_1, fp_R0; ring.
  - reflexivity.
Defined.

Lemma visible_iff_elevation_ge_threshold_witness :
  15 >= 15 /\ PyMath.Rgeb 15 15 = true.
Proof.
  split; [lra |].
  apply (proj1 (visible_iff_elevation_ge_threshold
                  (fun _ _ => (0, 0, 0)) (fun _ _ _ => I3))); lra.
Defined.

(** ** Further properties of the topocentric projection *)

Lemma sin_cos_1 (x : R) : sin x * sin x + cos x * cos x = 1.
Proof. pose proof (sin2_cos2 x) as H; unfold Rsqr in H; exact H. Qed.

(** X1: the East/North/Up components have the same Euclidean length as the
    Earth-fixed difference vector they are computed from, at every observer
    latitude and longitude. *)
Theorem enu_components_preserves_length (dxyz : Vec3) (lat_deg lon_deg : R) :
  dot (enu_components dxyz lat_deg lon_deg) (enu_components dxyz lat_deg lon_deg)
  = dot dxyz dxyz.
Proof.
  split_vec dxyz; unfold enu_components, dot.
  pose proof (sin_cos_1 (PyMath.radians lat_deg)) as Hp.
  pose proof (sin_cos_1 (PyMath.radians lon_deg)) as Hl.
  set (sp := sin (PyMath.radians lat_deg)) in *.
  set (cp := cos (PyMath.radians lat_deg)) in *.
  set (sl := sin (PyMath.radians lon_deg)) in *.
  set (cl := cos (PyMath.radians lon_deg)) in *.
  transitivity
    (x * x + y * y + z * z
     + (sp * sp + cp * cp - 1) * ((cl * x + sl * y) * (cl * x + sl * y) + z * z)
     + (sl * sl + cl * cl - 1) * (x * x + y * y)); [ring |].
  rewrite Hp, Hl; ring.
Qed.

(** X2: the projection sends the local east, north and up unit vectors of
    the observer to (1,0,0), (0,1,0) and (0,0,1). *)
Theorem enu_components_local_axes (lat_deg lon_deg : R) :
  let lat := PyMath.radians lat_deg in
  let lon := PyMath.radians lon_deg in
  enu_components (- sin lon, cos lon, 0) lat_deg lon_deg = (1, 0, 0) /\
  enu_components (- sin lat * cos lon, - sin lat * sin lon, cos lat)
    lat_deg lon_deg = (0, 1, 0) /\
  enu_components (cos lat * cos lon, cos lat * sin lon, sin lat)
    lat_deg lon_deg = (0, 0, 1).
Proof.
  intros lat lon; unfold enu_components; fold lat lon.
  pose proof (sin_cos_1 lat) as Hp.
  pose proof (sin_cos_1 lon) as Hl.
  set (sp := sin lat) in *. set (cp := cos lat) in *.
  set (sl := sin lon) in *. set (cl := cos lon) in *.
  repeat split; entries; try ring.
  - transitivity (sl * sl + cl * cl); [ring | exact Hl].
  - transitivity (sp * sp * (sl * sl + cl * cl - 1) + (sp * sp + cp * cp));
      [ring | rewrite Hl, Hp; ring].
  - transitivity (cp * sp * (1 - (sl * sl + cl * cl))); [ring | rewrite Hl; ring].
  - transitivity (cp * sp * (1 - (sl * sl + cl * cl))); [ring | rewrite Hl; ring].
  - transitivity (cp * cp * (sl * sl + cl * cl - 1) + (sp * sp + cp * cp));
      [ring | rewrite Hl, Hp; ring].
Qed.

(** X3: a satellite straight above the observer (same geodetic latitude and
    longitude, height larger by d > 0) projects to (0, 0, d) and is seen at
    elevation 90 degrees. *)
Theorem satellite_overhead_elevation_90 (lat_deg lon_deg h d : R) :
  0 < d ->
  let sat := geodetic_to_ecef lat_deg lon_deg (h + d) in
  let obs := geodetic_to_ecef lat_deg lon_deg h in
  enu_components (vsub sat obs) lat_deg lon_deg = (0, 0, d) /\
  (let '(E, N, U) := enu_components (vsub sat obs) lat_deg lon_deg in
   elevation_from_enu E N U = 90).
Proof.
  intros Hd sat obs.
  assert (Henu : enu_components (vsub sat obs) lat_deg lon_deg = (0, 0, d)).
  { unfold sat, obs, geodetic_to_ecef, vsub, enu_components.
    pose proof (sin_cos_1 (PyMath.radians lat_deg)) as Hp.
    pose proof (sin_cos_1 (PyMath.radians lon_deg)) as Hl.
    set (sp := sin (PyMath.radians lat_deg)) in *.
    set (cp := cos (PyMath.radians lat_deg)) in *.
    set (sl := sin (PyMath.radians lon_deg)) in *.
    set (cl := cos (PyMath.radians lon_deg)) in *.
    set (N := A / sqrt (1.0 - E2 * sp ^ 2)).
    entries.
    - ring.
    - transitivity (d * sp * cp * (1 - (sl * sl + cl * cl)));
        [ring | rewrite Hl; ring].
    - transitivity (d * (cp * cp * (sl * sl + cl * cl - 1) + (sp * sp + cp * cp)));
        [ring | rewrite Hl, Hp; ring]. }
  split; [exact Henu |].
  rewrite Henu.
  unfold elevation_from_enu; rewrite hypot_0_0.
  unfold PyMath.atan2.
  destruct (Rlt_dec 0 0); [lra |].
  destruct (Rlt_dec 0 d); [| lra].
  unfold PyMath.degrees; field; apply PI_neq0.
Qed.

Lemma hypot_sqr (x y : R) :
  PyMath.hypot x y * PyMath.hypot x y = x * x + y * y.
Proof. unfold PyMath.hypot; apply sqrt_sqrt; nra. Qed.

Lemma hypot_eq_0 (x y : R) : PyMath.hypot x y = 0 <-> x = 0 /\ y = 0.
Proof.
  split.
  - intros H; pose proof (hypot_sqr x y) as Hs; rewrite H in Hs.
    split; nra.
  - intros [-> ->]; apply hypot_0_0.
Qed.

Lemma atan_pos (t : R) : 0 < t -> 0 < atan t.
Proof. intros H; rewrite <- atan_0; apply atan_increasing, H. Qed.

Lemma atan_neg (t : R) : t < 0 -> atan t < 0.
Proof. intros H; rewrite <- atan_0; apply atan_increasing, H. Qed.

(** On the closed right half plane the sign of atan2 is the sign of its
    first argument. *)
Lemma atan2_sign (y x : R) :
  0 <= x ->
  (0 < y -> 0 < PyMath.atan2 y x) /\
  (y < 0 -> PyMath.atan2 y x < 0) /\
  (y = 0 -> PyMath.atan2 y x = 0).
Proof.
  intros Hx; pose proof PI_RGT_0 as Hpi; unfold PyMath.atan2.
  destruct (Rlt_dec 0 x) as [Hpos | Hnpos].
  - repeat split; intros Hy.
    + apply atan_pos, Rdiv_lt_0_compat; assumption.
    + apply atan_neg.
      replace (y / x) with (- ((- y) / x)) by (field; lra).
      assert (0 < - y / x) by (apply Rdiv_lt_0_compat; lra). lra.
    + subst y; replace (0 / x) with 0 by (field; lra); apply atan_0.
  - destruct (Rlt_dec x 0); [lra |].
    destruct (Rlt_dec 0 y); destruct (Rlt_dec y 0); repeat split; intros; lra.
Qed.

Lemma degrees_sign (a : R) :
  (0 < a -> 0 < PyMath.degrees a) /\
  (a < 0 -> PyMath.degrees a < 0) /\
  (a = 0 -> PyMath.degrees a = 0).
Proof.
  pose proof PI_RGT_0 as Hpi.
  assert (Hk : 0 < 180 / PI) by (apply Rdiv_lt_0_compat; lra).
  unfold PyMath.degrees; repeat split; intros; nra.
Qed.

(** X4: the elevation is positive exactly when the Up component is positive,
    negative exactly when it is negative, and 0 exactly when it is 0: the
    satellite is above the local horizontal plane iff U > 0. *)
Theorem elevation_sign_is_sign_of_U (E N U : R) :
  (0 < elevation_from_enu E N U <-> 0 < U) /\
  (elevation_from_enu E N U < 0 <-> U < 0) /\
  (elevation_from_enu E N U = 0 <-> U = 0).
Proof.
  unfold elevation_from_enu.
  destruct (atan2_sign U (PyMath.hypot E N) (hypot_nonneg E N))
    as (Hp & Hn & Hz).
  destruct (degrees_sign (PyMath.atan2 U (PyMath.hypot E N)))
    as (Dp & Dn & Dz).
  destruct (Rtotal_order U 0) as [Hlt | [Heq | Hgt]].
  - specialize (Dn (Hn Hlt)); repeat split; intros; lra.
  - specialize (Dz (Hz Heq)); repeat split; intros; lra.
  - specialize (Dp (Hp Hgt)); repeat split; intros; lra.
Qed.

Lemma hypot_scale (k x y : R) :
  0 <= k -> PyMath.hypot (k * x) (k * y) = k * PyMath.hypot x y.
Proof.
  intros Hk; unfold PyMath.hypot.
  replace (k * x * (k * x) + k * y * (k * y)) with (k * k * (x * x + y * y))
    by ring.
  rewrite sqrt_mult_alt by nra.
  rewrite sqrt_square by assumption; reflexivity.
Qed.

Lemma atan2_scale (k y x : R) :
  0 < k -> PyMath.atan2 (k * y) (k * x) = PyMath.atan2 y x.
Proof.
  intros Hk; unfold PyMath.atan2.
  destruct (Rlt_dec 0 x) as [Hx | Hx].
  - destruct (Rlt_dec 0 (k * x)); [| nra].
    f_equal; field; lra.
  - destruct (Rlt_dec 0 (k * x)); [nra |].
    destruct (Rlt_dec x 0) as [Hx' | Hx'].
    + destruct (Rlt_dec (k * x) 0); [| nra].
      replace (k * y / (k * x)) with (y / x) by (field; lra).
      destruct (Rle_dec 0 y); destruct (Rle_dec 0 (k * y));
        try reflexivity; nra.
    + destruct (Rlt_dec (k * x) 0); [nra |].
      destruct (Rlt_dec 0 y); destruct (Rlt_dec 0 (k * y)); try nra;
        try reflexivity.
      destruct (Rlt_dec y 0); destruct (Rlt_dec (k * y) 0); try nra;
        reflexivity.
Qed.

(** X5: the elevation depends only on the direction of the East/North/Up
    vector: scaling all three components by the same k > 0 leaves it
    unchanged. *)
Theorem elevation_scale_invariant (k E N U : R) :
  0 < k ->
  elevation_from_enu (k * E) (k * N) (k * U) = elevation_from_enu E N U.
Proof.
  intros Hk; unfold elevation_from_enu.
  rewrite hypot_scale by lra.
  rewrite atan2_scale by assumption; reflexivity.
Qed.

Lemma radians_degrees (a : R) : PyMath.radians (PyMath.degrees a) = a.
Proof. unfold PyMath.radians, PyMath.degrees; field; apply PI_neq0. Qed.

(** X6: for a nonzero East/North/Up vector the sine of the elevation is
    U divided by the length of the vector. *)
Theorem sin_elevation_is_U_over_range (E N U : R) :
  (E, N, U) <> (0, 0, 0) ->
  sin (PyMath.radians (elevation_from_enu E N U))
  = U / sqrt (E * E + N * N + U * U).
Proof.
  intros Hnz; unfold elevation_from_enu; rewrite radians_degrees.
  pose proof (hypot_nonneg E N) as Hh.
  pose proof (hypot_sqr E N) as Hs.
  rewrite <- Hs.
  set (h := PyMath.hypot E N) in *.
  unfold PyMath.atan2.
  destruct (Rlt_dec 0 h) as [Hpos | Hnpos].
  - rewrite sin_atan; unfold Rsqr.
    assert (Hq : 1 + U / h * (U / h) = (h * h + U * U) * (/ h * / h))
      by (field; lra).
    rewrite Hq, sqrt_mult_alt by nra.
    assert (Hi : sqrt (/ h * / h) = / h).
    { apply sqrt_square; left; apply Rinv_0_lt_compat, Hpos. }
    rewrite Hi.
    assert (Hr : 0 < sqrt (h * h + U * U)) by (apply sqrt_lt_R0; nra).
    field; lra.
  - destruct (Rlt_dec h 0); [lra |].
    assert (h0 : h = 0) by lra.
    rewrite h0; replace (0 * 0 + U * U) with (U * U) by ring.
    destruct (Rlt_dec 0 U) as [HU | HU].
    + rewrite sin_PI2, sqrt_square by lra. field; lra.
    + destruct (Rlt_dec U 0) as [HU' | HU'].
      * rewrite sin_neg, sin_PI2.
        replace (U * U) with ((- U) * (- U)) by ring.
        rewrite sqrt_square by lra. field; lra.
      * exfalso; apply Hnz.
        assert (U = 0) by lra.
        unfold h in h0; apply hypot_eq_0 in h0; destruct h0; subst.
        reflexivity.
Qed.

(** ** Further properties of the geodetic conversion *)

Lemma E2_bounds : 0 < E2 < 1.
Proof. unfold E2, F; lra. Qed.

(** The quantity under the square root of the radius of curvature is
    positive at every latitude: the division never meets zero. *)
Lemma curvature_radicand_pos (lat : R) : 0 < 1.0 - E2 * sin lat ^ 2.
Proof.
  pose proof E2_bounds as HE.
  pose proof (sin_cos_1 lat) as Hp.
  assert (sin lat * sin lat <= 1) by nra.
  simpl; nra.
Qed.

(** X8: with height 0 the converted point lies on the WGS-84 ellipsoid
    X^2/a^2 + Y^2/a^2 + Z^2/b^2 = 1, where b^2 = a^2 (1 - e2), for every
    latitude and longitude. *)
Theorem geodetic_to_ecef_on_ellipsoid (lat_deg lon_deg : R) :
  let '(X, Y, Z) := geodetic_to_ecef lat_deg lon_deg 0 in
  X * X / (A * A) + Y * Y / (A * A) + Z * Z / (A * A * (1 - E2)) = 1.
Proof.
  unfold geodetic_to_ecef; cbv beta iota zeta.
  pose proof E2_bounds as HE.
  pose proof (sin_cos_1 (PyMath.radians lat_deg)) as Hp.
  pose proof (sin_cos_1 (PyMath.radians lon_deg)) as Hl.
  pose proof (curvature_radicand_pos (PyMath.radians lat_deg)) as Hrad.
  pose proof (sqrt_sqrt _ (Rlt_le _ _ Hrad)) as Hw.
  pose proof (sqrt_lt_R0 _ Hrad) as Hwpos.
  set (w := sqrt (1.0 - E2 * sin (PyMath.radians lat_deg) ^ 2)) in *.
  set (sp := sin (PyMath.radians lat_deg)) in *.
  set (cp := cos (PyMath.radians lat_deg)) in *.
  set (sl := sin (PyMath.radians lon_deg)) in *.
  set (cl := cos (PyMath.radians lon_deg)) in *.
  assert (HA : A <> 0) by (unfold A; lra).
  assert (Hkey : cp * cp * (cl * cl + sl * sl) + (1 - E2) * (sp * sp) = w * w).
  { rewrite Hw. replace (cl * cl + sl * sl) with 1 by lra.
    simpl; nra. }
  replace (1.0 - E2) with (1 - E2) by lra.
  transitivity ((cp * cp * (cl * cl + sl * sl) + (1 - E2) * (sp * sp)) / (w * w)).
  - field; repeat split; lra.
  - rewrite Hkey; field; lra.
Qed.

(** X9: with height 0 the distance of the converted point from the Earth's
    centre lies between the polar radius a sqrt(1 - e2) and the equatorial
    radius a. *)
Theorem geodetic_to_ecef_radius_bounds (lat_deg lon_deg : R) :
  let p := geodetic_to_ecef lat_deg lon_deg 0 in
  A * A * (1 - E2) <= dot p p <= A * A.
Proof.
  unfold geodetic_to_ecef, dot; cbv beta iota zeta.
  pose proof E2_bounds as HE.
  pose proof (sin_cos_1 (PyMath.radians lat_deg)) as Hp.
  pose proof (sin_cos_1 (PyMath.radians lon_deg)) as Hl.
  pose proof (curvature_radicand_pos (PyMath.radians lat_deg)) as Hrad.
  pose proof (sqrt_sqrt _ (Rlt_le _ _ Hrad)) as Hw.
  pose proof (sqrt_lt_R0 _ Hrad) as Hwpos.
  set (w := sqrt (1.0 - E2 * sin (PyMath.radians lat_deg) ^ 2)) in *.
  set (sp := sin (PyMath.radians lat_deg)) in *.
  set (cp := cos (PyMath.radians lat_deg)) in *.
  set (sl := sin (PyMath.radians lon_deg)) in *.
  set (cl := cos (PyMath.radians lon_deg)) in *.
  assert (Hs : 0 <= sp * sp <= 1) by nra.
  assert (Hw2 : w * w = 1 - E2 * (sp * sp)) by (rewrite Hw; simpl; lra).
  assert (Hdot :
    (A / w + 0) * cp * cl * ((A / w + 0) * cp * cl)
    + (A / w + 0) * cp * sl * ((A / w + 0) * cp * sl)
    + (A / w * (1.0 - E2) + 0) * sp * ((A / w * (1.0 - E2) + 0) * sp)
    = A * A * ((1 - (sp * sp) * E2 * (2 - E2)) / (w * w))).
  { replace (1.0 - E2) with (1 - E2) by lra.
    transitivity
      (A * A * ((cp * cp * (cl * cl + sl * sl)
                 + (1 - E2) * (1 - E2) * (sp * sp)) / (w * w)));
      [field; lra |].
    replace (cl * cl + sl * sl) with 1 by lra.
    replace (cp * cp) with (1 - sp * sp) by lra.
    f_equal; f_equal; ring. }
  rewrite Hdot.
  assert (HA : 0 < A * A) by (unfold A; lra).
  assert (Hww : 0 < w * w) by nra.
  assert (Hlo : 1 - E2 <= (1 - sp * sp * E2 * (2 - E2)) / (w * w)).
  { apply Rmult_le_reg_r with (w * w); [exact Hww |].
    replace ((1 - sp * sp * E2 * (2 - E2)) / (w * w) * (w * w))
      with (1 - sp * sp * E2 * (2 - E2)) by (field; lra).
    rewrite Hw2; nra. }
  assert (Hhi : (1 - sp * sp * E2 * (2 - E2)) / (w * w) <= 1).
  { apply Rmult_le_reg_r with (w * w); [exact Hww |].
    replace ((1 - sp * sp * E2 * (2 - E2)) / (w * w) * (w * w))
      with (1 - sp * sp * E2 * (2 - E2)) by (field; lra).
    rewrite Hw2; nra. }
  split; nra.
Qed.

Lemma sin_plus_2PI (x : R) : sin (x + 2 * PI) = sin x.
Proof. rewrite sin_plus, sin_2PI, cos_2PI; ring. Qed.

Lemma cos_plus_2PI (x : R) : cos (x + 2 * PI) = cos x.
Proof. rewrite cos_plus, sin_2PI, cos_2PI; ring. Qed.

Lemma radians_plus_360 (x : R) : PyMath.radians (x + 360) = PyMath.radians x + 2 * PI.
Proof. unfold PyMath.radians; field. Qed.

Lemma radians_opp (x : R) : PyMath.radians (- x) = - PyMath.radians x.
Proof. unfold PyMath.radians; ring. Qed.

(** X10: the geodetic conversion is unchanged when the longitude is
    increased by 360 degrees, and negating the latitude mirrors the point
    in the equatorial plane (X and Y kept, Z negated). *)
Theorem geodetic_to_ecef_symmetries (lat_deg lon_deg h_m : R) :
  geodetic_to_ecef lat_deg (lon_deg + 360) h_m
  = geodetic_to_ecef lat_deg lon_deg h_m /\
  (let '(X, Y, Z) := geodetic_to_ecef lat_deg lon_deg h_m in
   geodetic_to_ecef (- lat_deg) lon_deg h_m = (X, Y, - Z)).
Proof.
  unfold geodetic_to_ecef; cbv beta iota zeta; split.
  - rewrite radians_plus_360, sin_plus_2PI, cos_plus_2PI; reflexivity.
  - rewrite radians_opp, sin_neg, cos_neg.
    replace ((- sin (PyMath.radians lat_deg)) ^ 2)
      with (sin (PyMath.radians lat_deg) ^ 2) by ring.
    entries; ring.
Qed.

(** ** Further properties of the Earth rotation angle *)

Lemma frac_part_plus_IZR (x : R) (k : Z) : frac_part (x + IZR k) = frac_part x.
Proof.
  destruct (base_fp x) as [H0 H1].
  destruct (Int_part_frac_part_spec (x + IZR k) (Int_part x + k) (frac_part x))
    as [_ Hf].
  - lra.
  - rewrite plus_IZR.
    pose proof (Rplus_Int_part_frac_part x) as Hd; lra.
  - symmetry; exact Hf.
Qed.

(** X11: the Earth Rotation Angle is periodic in the UT1 date with period
    1/1.00273781191135448 days (one rotation): moving the date by any whole
    number k of periods, forward or backward, gives the same angle. *)
Theorem era_from_ut1_periodic (jd_ut1 : R) (k : Z) :
  era_from_ut1 (jd_ut1 + IZR k / 1.00273781191135448) = era_from_ut1 jd_ut1.
Proof.
  unfold era_from_ut1; cbv zeta.
  rewrite one_dot_zero, !float_rem_1.
  replace (0.7790572732640
           + 1.00273781191135448
             * (jd_ut1 + IZR k / 1.00273781191135448 - 2451545.0))
    with (0.7790572732640 + 1.00273781191135448 * (jd_ut1 - 2451545.0) + IZR k)
    by (field; lra).
  rewrite frac_part_plus_IZR; reflexivity.
Qed.

(** ** Further properties of the rotation functions and of the transform *)

(** X12: rotations about one axis compose by adding their angles. *)
Theorem rotations_about_one_axis_add (a b : R) :
  matmul (R1 a) (R1 b) = R1 (a + b) /\
  matmul (R2 a) (R2 b) = R2 (a + b) /\
  matmul (R3 a) (R3 b) = R3 (a + b).
Proof.
  unfold R1, R2, R3; rewrite sin_plus, cos_plus.
  repeat split; mat_unfold; entries; ring.
Qed.

(** X13: the transpose of a rotation is the rotation by the opposite angle,
    and that rotation undoes it. *)
Theorem rotation_opposite_angle (x : R) :
  (transpose (R1 x) = R1 (- x) /\ matmul (R1 (- x)) (R1 x) = I3) /\
  (transpose (R2 x) = R2 (- x) /\ matmul (R2 (- x)) (R2 x) = I3) /\
  (transpose (R3 x) = R3 (- x) /\ matmul (R3 (- x)) (R3 x) = I3).
Proof.
  assert (T1 : transpose (R1 x) = R1 (- x)).
  { unfold R1; rewrite sin_neg, cos_neg; mat_unfold; entries; ring. }
  assert (T2 : transpose (R2 x) = R2 (- x)).
  { unfold R2; rewrite sin_neg, cos_neg; mat_unfold; entries; ring. }
  assert (T3 : transpose (R3 x) = R3 (- x)).
  { unfold R3; rewrite sin_neg, cos_neg; mat_unfold; entries; ring. }
  repeat split; try assumption.
  - rewrite <- T1; apply orthonormal_iff, orthonormal_R1.
  - rewrite <- T2; apply orthonormal_iff, orthonormal_R2.
  - rewrite <- T3; apply orthonormal_iff, orthonormal_R3.
Qed.

Lemma matvec_vsub (M : Mat3) (u v : Vec3) :
  matvec M (vsub u v) = vsub (matvec M u) (matvec M v).
Proof. split_mat M; split_vec u; split_vec v; mat_unfold; entries; ring. Qed.

(** An orthonormal array keeps the length of every vector. *)
Lemma orthonormal_preserves_length (M : Mat3) (v : Vec3) :
  orthonormal M -> dot (matvec M v) (matvec M v) = dot v v.
Proof.
  intros (_ & Hc & _); revert Hc.
  split_mat M; split_vec v; unfold orthonormal_triple; mat_unfold.
  intros (H1 & H2 & H3 & H4 & H5 & H6).
  transitivity
    (x * x * (a * a + d * d + g * g) + y * y * (b * b + e * e + h * h)
     + z * z * (c * c + f * f + i * i)
     + 2 * x * y * (a * b + d * e + g * h)
     + 2 * x * z * (a * c + d * f + g * i)
     + 2 * y * z * (b * c + e * f + h * i)); [ring |].
  rewrite H1, H2, H3, H4, H5, H6; ring.
Qed.

Section TransformFacts.

Variable xys00b : R -> R -> R * R * R.
Variable c2ixys : R -> R -> R -> Mat3.

(** X14: with an orthonormal precession-nutation array, the transformation
    to the Earth-fixed frame keeps the length of a position vector and the
    distance between any two positions transformed at the same epoch. *)
Theorem eci_to_ecef_gcrs_preserves_distance (r1 r2 : Vec3) (jd_tt : R)
    (leap : Z) (DUT1 xp_as yp_as : R) :
  orthonormal (C_from_XYs xys00b c2ixys jd_tt) ->
  let T := fun r => eci_to_ecef_gcrs xys00b c2ixys r jd_tt leap DUT1 xp_as yp_as in
  dot (T r1) (T r1) = dot r1 r1 /\
  dot (vsub (T r1) (T r2)) (vsub (T r1) (T r2)) = dot (vsub r1 r2) (vsub r1 r2).
Proof.
  intros HC T; unfold T; rewrite !eci_to_ecef_gcrs_unfold.
  pose proof (orthonormal_C2T xys00b c2ixys jd_tt
                (jd_tt - tt_utc_leap_seconds leap / day_sec + DUT1 / day_sec)
                (xp_as * DAS2R) (yp_as * DAS2R) HC) as HM.
  split.
  - apply orthonormal_preserves_length, HM.
  - rewrite <- matvec_vsub; apply orthonormal_preserves_length, HM.
Qed.

(** X15: without polar motion (xp = yp = 0) the Earth-fixed Z coordinate is
    the Z coordinate of the precession-nutation array applied to the
    inertial vector: it depends neither on the leap seconds nor on DUT1. *)
Theorem eci_to_ecef_gcrs_z_without_polar_motion (r : Vec3) (jd_tt : R)
    (leap : Z) (DUT1 : R) :
  snd (eci_to_ecef_gcrs xys00b c2ixys r jd_tt leap DUT1 0 0)
  = snd (matvec (C_from_XYs xys00b c2ixys jd_tt) r).
Proof.
  rewrite eci_to_ecef_gcrs_unfold.
  replace (0 * DAS2R) with 0 by ring.
  rewrite W_polar_0_0, matmul_I3_l, matvec_matmul.
  destruct (matvec (C_from_XYs xys00b c2ixys jd_tt) r) as [[x y] z].
  unfold R3; mat_unfold; ring.
Qed.

End TransformFacts.

(** ** Input validation *)

Example replace_comma_decimal : replace_comma "45,920266" = "45.920266"%string.
Proof. reflexivity. Qed.

Lemma flt_Fin (x : pyfloat) (l : R) :
  flt x (Fin l) = false -> x = NaN \/ x = PInf \/ exists r, x = Fin r /\ l <= r.
Proof.
  destruct x as [r | | |]; simpl; intros H; auto; try discriminate.
  right; right; exists r; split; [reflexivity |].
  unfold PyMath.Rltb in H; destruct (Rlt_dec r l); [discriminate | lra].
Qed.

Lemma fgt_Fin (x : pyfloat) (h : R) :
  fgt x (Fin h) = false -> x = NaN \/ x = NInf \/ exists r, x = Fin r /\ r <= h.
Proof.
  destruct x as [r | | |]; unfold fgt; simpl; intros H; auto; try discriminate.
  right; right; exists r; split; [reflexivity |].
  unfold PyMath.Rltb in H; destruct (Rlt_dec h r); [discriminate | lra].
Qed.

Section ParserFacts.

Variable py_strip : string -> string.
Variable py_float : string -> option pyfloat.
Variable py_int : string -> option Z.

(** X17: [parse_int] returns v exactly when the stripped text converts to
    the integer v and v respects each bound that is given; it never returns
    an integer outside [lo, hi]. *)
Theorem parse_int_ok_iff (entry name : string) (lo hi : option Z) (v : Z) :
  parse_int py_strip py_int entry name lo hi = inr v <->
  py_int (py_strip entry) = Some v /\
  (forall l, lo = Some l -> (l <= v)%Z) /\
  (forall h, hi = Some h -> (v <= h)%Z).
Proof.
  unfold parse_int; cbv zeta.
  destruct (py_int (py_strip entry)) as [u |];
    [| split; [discriminate | intros (H & _); discriminate]].
  assert (Hlo : forall l, (u <? l)%Z = false <-> (l <= u)%Z)
    by (intros l; rewrite Z.ltb_ge; reflexivity).
  assert (Hhi : forall h, (u >? h)%Z = false <-> (u <= h)%Z).
  { intros h; rewrite Z.gtb_ltb, Z.ltb_ge; reflexivity. }
  split.
  - intros H.
    assert (Huv : u = v /\
                  (forall l, lo = Some l -> (u <? l)%Z = false) /\
                  (forall h, hi = Some h -> (u >? h)%Z = false)).
    { destruct lo as [l |], hi as [h |];
        try destruct (u <? l)%Z eqn:El; try destruct (u >? h)%Z eqn:Eh;
        try discriminate; inversion H; subst;
        repeat split; intros b Hb; inversion Hb; subst; assumption. }
    destruct Huv as (-> & Hl & Hh); repeat split.
    + intros l E; apply Hlo, Hl, E.
    + intros h E; apply Hhi, Hh, E.
  - intros (Hu & Hl & Hh); inversion Hu; subst u.
    destruct lo as [l |].
    + rewrite (proj2 (Hlo l) (Hl l eq_refl)).
      destruct hi as [h |]; [rewrite (proj2 (Hhi h) (Hh h eq_refl)) |];
        reflexivity.
    + destruct hi as [h |]; [rewrite (proj2 (Hhi h) (Hh h eq_refl)) |];
        reflexivity.
Qed.

(** X18: with finite bounds l and h, a value returned by [parse_float] is
    either a finite number within [l, h] or NaN; an infinity or a finite
    number outside the bounds is never returned. *)
Theorem parse_float_bounded (entry name : string) (l h : R) (x : pyfloat) :
  parse_float py_strip py_float entry name (Some (Fin l)) (Some (Fin h)) = inr x ->
  x = NaN \/ exists r, x = Fin r /\ l <= r <= h.
Proof.
  unfold parse_float; cbv zeta.
  destruct (py_float _) as [u |]; [| discriminate].
  destruct (flt u (Fin l)) eqn:Hl; [discriminate |].
  destruct (fgt u (Fin h)) eqn:Hh; [discriminate |].
  intros H; inversion H; subst x.
  apply flt_Fin in Hl; apply fgt_Fin in Hh.
  destruct Hl as [-> | [-> | (r & -> & Hr)]]; auto.
  - destruct Hh as [Hn | [Hn | (r & Hn & _)]]; discriminate.
  - destruct Hh as [Hn | [Hn | (r' & Hn & Hr')]]; try discriminate.
    inversion Hn; subst r'. right; exists r; split; [reflexivity | lra].
Qed.

(** X19: a text that converts to NaN passes every range check:
    [parse_float] returns NaN whatever bounds are given. *)
Theorem parse_float_accepts_nan (entry name : string) (lo hi : option pyfloat) :
  py_float (replace_comma (py_strip entry)) = Some NaN ->
  parse_float py_strip py_float entry name lo hi = inr NaN.
Proof.
  intros H; unfold parse_float; cbv zeta; rewrite H.
  destruct lo as [[ | | | ] |], hi as [[ | | | ] |]; reflexivity.
Qed.

End ParserFacts.

Lemma bind_inr {T U : Type} (m : Result T) (k : T -> Result U) (u : U) :
  bind m k = inr u -> exists a, m = inr a /\ k a = inr u.
Proof.
  destruct m as [e | a]; simpl; [discriminate |].
  intros H; exists a; split; [reflexivity | exact H].
Qed.

Section ComputeInputsFacts.

Variable py_strip : string -> string.
Variable py_float : string -> option pyfloat.
Variable py_int : string -> option Z.

Lemma parse_float_within (entry name : string) (l h l' h' : R) (x : pyfloat) :
  l' = l -> h' = h ->
  parse_float py_strip py_float entry name (Some (Fin l')) (Some (Fin h')) = inr x ->
  nan_or_within l h x.
Proof. intros -> ->; apply parse_float_bounded. Qed.

(** X20: when [compute] gets past its reading stage, the leap seconds are
    an integer in [0, 100]; latitude and threshold are in [-90, 90] and
    longitude in [-180, 180] unless they are NaN; with the EOP box checked
    DUT1, xp and yp are in [-1, 1] unless NaN, and with the box unchecked
    they are 0. *)
Theorem compute_inputs_ranges (w : Entries) (i : Inputs) :
  compute_inputs py_strip py_float py_int w = inr i ->
  (0 <= in_leap_seconds i <= 100)%Z /\
  nan_or_within (-90) 90 (in_lat i) /\
  nan_or_within (-180) 180 (in_lon i) /\
  nan_or_within (-90) 90 (in_min_elev i) /\
  (if var_use_eop w
   then nan_or_within (-1) 1 (in_dut1 i) /\
        nan_or_within (-1) 1 (in_xp_as i) /\
        nan_or_within (-1) 1 (in_yp_as i)
   else in_dut1 i = Fin 0 /\ in_xp_as i = Fin 0 /\ in_yp_as i = Fin 0).
Proof.
  unfold compute_inputs; intros H.
  apply bind_inr in H; destruct H as (x & _ & H).
  apply bind_inr in H; destruct H as (y & _ & H).
  apply bind_inr in H; destruct H as (z & _ & H).
  apply bind_inr in H; destruct H as (jdn & _ & H).
  apply bind_inr in H; destruct H as (lat & Hlat & H).
  apply bind_inr in H; destruct H as (lon & Hlon & H).
  apply bind_inr in H; destruct H as (h & _ & H).
  apply bind_inr in H; destruct H as (me & Hme & H).
  apply bind_inr in H; destruct H as (leap & Hleap & H).
  apply parse_int_ok_iff in Hleap; destruct Hleap as (_ & Hl0 & Hl100).
  specialize (Hl0 _ eq_refl); specialize (Hl100 _ eq_refl).
  apply (parse_float_within _ _ (-90) 90) in Hlat; try lra.
  apply (parse_float_within _ _ (-180) 180) in Hlon; try lra.
  apply (parse_float_within _ _ (-90) 90) in Hme; try lra.
  destruct (var_use_eop w).
  - apply bind_inr in H; destruct H as (dut1 & Hd & H).
    apply bind_inr in H; destruct H as (xp & Hxp & H).
    apply bind_inr in H; destruct H as (yp & Hyp & H).
    apply (parse_float_within _ _ (-1) 1) in Hd; try lra.
    apply (parse_float_within _ _ (-1) 1) in Hxp; try lra.
    apply (parse_float_within _ _ (-1) 1) in Hyp; try lra.
    inversion H; subst i; simpl; repeat split; assumption || lia.
  - inversion H; subst i; simpl.
    repeat split; try assumption; try lia; f_equal; lra.
Qed.

(** With the EOP box unchecked the DUT1, xp and yp entries are not
    read: whatever text they hold, even text that is no number, the reading
    stage gives the same outcome. *)
Lemma compute_inputs_ignores_eop_when_off (w : Entries) (d xp yp : string) :
  var_use_eop w = false ->
  compute_inputs py_strip py_float py_int
    (mkEntries (ent_x w) (ent_y w) (ent_z w) (ent_jdn w) (ent_lat w)
       (ent_lon w) (ent_h w) (ent_min_elev w) (ent_leaps w) false d xp yp)
  = compute_inputs py_strip py_float py_int w.
Proof.
  destruct w; simpl; intros ->; reflexivity.
Qed.

End ComputeInputsFacts.

(** ** Round trip, cancellation and mirror properties *)

(** X21: the Earth-fixed difference vector is recovered from its East,
    North and Up components by recombining them along the local axes; the
    projection loses nothing. *)
Theorem enu_components_round_trip (dxyz : Vec3) (lat_deg lon_deg : R) :
  let lat := PyMath.radians lat_deg in
  let lon := PyMath.radians lon_deg in
  let '(E, N, U) := enu_components dxyz lat_deg lon_deg in
  (- sin lon * E - sin lat * cos lon * N + cos lat * cos lon * U,
   cos lon * E - sin lat * sin lon * N + cos lat * sin lon * U,
   cos lat * N + sin lat * U) = dxyz.
Proof.
  intros lat lon; split_vec dxyz; unfold enu_components; fold lat lon.
  cbv beta iota zeta.
  pose proof (sin_cos_1 lat) as Hp.
  pose proof (sin_cos_1 lon) as Hl.
  set (sp := sin lat) in *. set (cp := cos lat) in *.
  set (sl := sin lon) in *. set (cl := cos lon) in *.
  entries.
  - transitivity
      (x + (sl * sl + cl * cl - 1) * x
       + (sp * sp + cp * cp - 1) * (cl * (cl * x + sl * y)));
      [ring | rewrite Hp, Hl; ring].
  - transitivity
      (y + (sl * sl + cl * cl - 1) * y
       + (sp * sp + cp * cp - 1) * (sl * (cl * x + sl * y)));
      [ring | rewrite Hp, Hl; ring].
  - transitivity (z + (sp * sp + cp * cp - 1) * z);
      [ring | rewrite Hp; ring].
Qed.

Lemma atan2_opp (y x : R) :
  0 <= x -> PyMath.atan2 (- y) x = - PyMath.atan2 y x.
Proof.
  intros Hx; unfold PyMath.atan2.
  destruct (Rlt_dec 0 x) as [Hpos | Hnpos].
  - replace (- y / x) with (- (y / x)) by (field; lra); apply atan_opp.
  - destruct (Rlt_dec x 0); [lra |].
    destruct (Rlt_dec 0 y); destruct (Rlt_dec 0 (- y)); try lra;
      destruct (Rlt_dec y 0); destruct (Rlt_dec (- y) 0); lra.
Qed.

(** X22: mirroring the satellite through the local horizontal plane
    (negating U) negates the elevation. *)
Theorem elevation_from_enu_mirror (E N U : R) :
  elevation_from_enu E N (- U) = - elevation_from_enu E N U.
Proof.
  unfold elevation_from_enu.
  rewrite atan2_opp by apply hypot_nonneg.
  unfold PyMath.degrees; ring.
Qed.

(** X23: polar motion with one offset zero is a single rotation,
    [W_polar xp 0 = R2 xp] and [W_polar 0 yp = R1 yp], and the transpose of
    [W_polar xp yp] is [R1 (-yp)] times [R2 (-xp)]. *)
Theorem W_polar_factors (xp yp : R) :
  W_polar xp 0 = R2 xp /\
  W_polar 0 yp = R1 yp /\
  transpose (W_polar xp yp) = matmul (R1 (- yp)) (R2 (- xp)).
Proof.
  unfold W_polar; repeat split.
  - rewrite R1_0; apply matmul_I3_r.
  - rewrite R2_0; apply matmul_I3_l.
  - rewrite transpose_matmul.
    destruct (rotation_opposite_angle xp) as (_ & (T2 & _) & _).
    destruct (rotation_opposite_angle yp) as ((T1 & _) & _ & _).
    rewrite T1, T2; reflexivity.
Qed.

(** X24: on the equator (latitude 0) the converted point has Z = 0 and
    lies at distance a + h from the rotation axis, in the direction of the
    longitude. *)
Theorem geodetic_to_ecef_equator (lon_deg h_m : R) :
  geodetic_to_ecef 0 lon_deg h_m
  = ((A + h_m) * cos (PyMath.radians lon_deg),
     (A + h_m) * sin (PyMath.radians lon_deg), 0).
Proof.
  unfold geodetic_to_ecef; cbv zeta.
  replace (PyMath.radians 0) with 0 by (unfold PyMath.radians; ring).
  rewrite sin_0, cos_0.
  replace (1.0 - E2 * 0 ^ 2) with 1 by lra.
  rewrite sqrt_1; entries; field.
Qed.

Section CancellationFacts.

Variable xys00b : R -> R -> R * R * R.
Variable c2ixys : R -> R -> R -> Mat3.

(** X25: leap seconds and DUT1 enter the transformation only through
    their difference: raising both by the same whole number k of seconds
    gives the same Earth-fixed vector. *)
Theorem eci_to_ecef_gcrs_leap_dut1_cancel (r : Vec3) (jd_tt : R) (leap k : Z)
    (DUT1 xp_as yp_as : R) :
  eci_to_ecef_gcrs xys00b c2ixys r jd_tt (leap + k) (DUT1 + IZR k) xp_as yp_as
  = eci_to_ecef_gcrs xys00b c2ixys r jd_tt leap DUT1 xp_as yp_as.
Proof.
  rewrite !eci_to_ecef_gcrs_unfold.
  replace (jd_tt - tt_utc_leap_seconds (leap + k) / day_sec
           + (DUT1 + IZR k) / day_sec)
    with (jd_tt - tt_utc_leap_seconds leap / day_sec + DUT1 / day_sec);
    [reflexivity |].
  unfold tt_utc_leap_seconds, day_sec; rewrite plus_IZR; lra.
Qed.

End CancellationFacts.

(** ** Instances of the further properties *)

Lemma satellite_overhead_elevation_90_witness :
  0 < 400000 /\
  enu_components
    (vsub (geodetic_to_ecef 45.920266 (-63.342286) (0 + 400000))
          (geodetic_to_ecef 45.920266 (-63.342286) 0))
    45.920266 (-63.342286) = (0, 0, 400000).
Proof.
  split; [lra |].
  apply (satellite_overhead_elevation_90 45.920266 (-63.342286) 0 400000); lra.
Defined.

Lemma elevation_sign_is_sign_of_U_witness :
  0 < 3 /\ 0 < elevation_from_enu 1 2 3.
Proof.
  split; [lra |].
  apply (proj1 (elevation_sign_is_sign_of_U 1 2 3)); lra.
Defined.

Lemma elevation_scale_invariant_witness :
  0 < 1000 /\
  elevation_from_enu (1000 * 1) (1000 * 2) (1000 * 3) = elevation_from_enu 1 2 3.
Proof.
  split; [lra |].
  apply (elevation_scale_invariant 1000 1 2 3); lra.
Defined.

Lemma sin_elevation_is_U_over_range_witness :
  (3, 4, 5) <> (0, 0, 0) /\
  sin (PyMath.radians (elevation_from_enu 3 4 5))
  = 5 / sqrt (3 * 3 + 4 * 4 + 5 * 5).
Proof.
  assert (H : (3, 4, 5) <> (0, 0, 0)) by (intros E; inversion E; lra).
  split; [exact H |].
  apply (sin_elevation_is_U_over_range 3 4 5 H).
Defined.

Lemma eci_to_ecef_gcrs_preserves_distance_witness :
  orthonormal (C_from_XYs (fun jd _ => (0, 0, jd)) (fun _ _ s => R3 s) 2459629) /\
  dot (eci_to_ecef_gcrs (fun jd _ => (0, 0, jd)) (fun _ _ s => R3 s)
         (4435144, -2137297, 4670064) 2459629 37 0.05 0.1 0.2)
      (eci_to_ecef_gcrs (fun jd _ => (0, 0, jd)) (fun _ _ s => R3 s)
         (4435144, -2137297, 4670064) 2459629 37 0.05 0.1 0.2)
  = dot (4435144, -2137297, 4670064) (4435144, -2137297, 4670064).
Proof.
  split; [apply orthonormal_R3 |].
  apply (eci_to_ecef_gcrs_preserves_distance (fun jd _ => (0, 0, jd))
           (fun _ _ s => R3 s) (4435144, -2137297, 4670064) (0, 0, 0)
           2459629 37 0.05 0.1 0.2).
  apply orthonormal_R3.
Defined.

Lemma parse_int_ok_iff_witness :
  parse_int (fun s => s) (fun _ => Some 37%Z) "37" "Leap seconds"
    (Some 0%Z) (Some 100%Z) = inr 37%Z.
Proof.
  apply (proj2 (parse_int_ok_iff (fun s => s) (fun _ => Some 37%Z) "37"
                  "Leap seconds" (Some 0%Z) (Some 100%Z) 37%Z)).
  repeat split; intros b Hb; inversion Hb; lia.
Defined.

Lemma parse_float_45 :
  parse_float (fun s => s) (fun _ => Some (Fin 45)) "45" "lat"
    (Some (Fin (-90))) (Some (Fin 90)) = inr (Fin 45).
Proof.
  unfold parse_float, fgt, flt; simpl; unfold PyMath.Rltb.
  destruct (Rlt_dec 45 (-90)); [lra |].
  destruct (Rlt_dec 90 45); [lra | reflexivity].
Defined.

Lemma parse_float_bounded_witness :
  parse_float (fun s => s) (fun _ => Some (Fin 45)) "45" "lat"
    (Some (Fin (-90))) (Some (Fin 90)) = inr (Fin 45) /\
  nan_or_within (-90) 90 (Fin 45).
Proof.
  split; [exact parse_float_45 |].
  apply (parse_float_bounded (fun s => s) (fun _ => Some (Fin 45)) "45" "lat"
           (-90) 90 (Fin 45) parse_float_45).
Defined.

Lemma parse_float_accepts_nan_witness :
  parse_float (fun s => s) (fun _ => Some NaN) "nan" "lat"
    (Some (Fin (-90))) (Some (Fin 90)) = inr NaN.
Proof.
  apply (parse_float_accepts_nan (fun s => s) (fun _ => Some NaN) "nan" "lat").
  reflexivity.
Defined.

(** Every field reads 0 and the leap seconds read 37, EOP box unchecked. *)
Lemma compute_inputs_all_zero :
  compute_inputs (fun s => s) (fun _ => Some (Fin 0)) (fun _ => Some 37%Z)
    (mkEntries "0" "0" "0" "0" "0" "0" "0" "0" "37" false "0" "0" "0")
  = inr (mkInputs (Fin 0) (Fin 0) (Fin 0) (Fin 0) (Fin 0) (Fin 0) (Fin 0)
           (Fin 0) 37 (Fin 0.0) (Fin 0.0) (Fin 0.0)).
Proof.
  unfold compute_inputs, parse_float, parse_int, bind, fgt, flt; simpl;
    unfold PyMath.Rltb.
  repeat match goal with
         | |- context [Rlt_dec ?a ?b] => destruct (Rlt_dec a b); [lra |]
         end.
  reflexivity.
Defined.

Lemma compute_inputs_ranges_witness :
  compute_inputs (fun s => s) (fun _ => Some (Fin 0)) (fun _ => Some 37%Z)
    (mkEntries "0" "0" "0" "0" "0" "0" "0" "0" "37" false "0" "0" "0")
  = inr (mkInputs (Fin 0) (Fin 0) (Fin 0) (Fin 0) (Fin 0) (Fin 0) (Fin 0)
           (Fin 0) 37 (Fin 0.0) (Fin 0.0) (Fin 0.0)) /\
  (0 <= 37 <= 100)%Z /\ nan_or_within (-90) 90 (Fin 0).
Proof.
  split; [exact compute_inputs_all_zero |].
  pose proof (compute_inputs_ranges (fun s => s) (fun _ => Some (Fin 0))
                (fun _ => Some 37%Z) _ _ compute_inputs_all_zero)
    as (Hleap & Hlat & _).
  split; [exact Hleap | exact Hlat].
Defined.
